(** * Spyder: the remote client container and the pytest configuration

    A shallow embedding of
    - [spyder/plugins/remoteclient/widgets/container.py]
      ([RemoteClientContainer]: [setup], [on_kernel_started],
      [_on_connection_status_changed], [_connect_ipyclient_signals],
      [_finish_kernel_connection]) and
    - [conftest.py] ([get_passed_tests], [pytest_collection_modifyitems]).

    Python objects that are shared and mutated (console clients, workers, the
    configuration store, the files on disk) live in an explicit [World];
    methods are computations in a state-and-exception monad [Py] that also
    logs every call made to a collaborator, in program order. *)

From Stdlib Require Import ZArith String Ascii.
From stdpp Require Import gmap strings list pretty.

Local Open Scope string_scope.
Local Open Scope list_scope.
Local Open Scope nat_scope.

(** ** Python values *)

(** The values the configuration store holds for the options read here:
    [None], booleans, integers and strings. *)
Inductive pyval :=
  | PyNone
  | PyBool (b : bool)
  | PyInt (z : Z)
  | PyStr (s : string).

Global Instance pyval_eq_dec : EqDecision pyval.
Proof. solve_decision. Defined.

(** [bool(v)], the test of [if v:]. *)
Definition truthy (v : pyval) : bool :=
  match v with
  | PyNone => false
  | PyBool b => b
  | PyInt z => negb (Z.eqb z 0)
  | PyStr s => negb (String.eqb s "")
  end.

(** [str(v)], which is also what a replacement field [{v}] of an f-string
    produces. *)
Definition py_str (v : pyval) : string :=
  match v with
  | PyNone => "None"
  | PyBool true => "True"
  | PyBool false => "False"
  | PyInt z => pretty z
  | PyStr s => s
  end.

(** [v == s] for a string constant [s]. *)
Definition eq_str (v : pyval) (s : string) : bool :=
  match v with
  | PyStr t => String.eqb t s
  | _ => false
  end.

(** JSON documents: the kernel connection descriptor and the values of the
    [kernel_info] dictionary. *)
#[local] Unset Elimination Schemes.
Inductive json :=
  | JNull
  | JBool (b : bool)
  | JNum (z : Z)
  | JStr (s : string)
  | JArr (items : list json)
  | JObj (members : list (string * json)).
#[local] Set Elimination Schemes.

(** The [error] argument of a worker's [sig_finished]: [None], or an object
    seen through the two protocols the callback uses, [bool(error)] and
    [str(error)].  An exception instance is [PyError true msg]. *)
Inductive pyerror :=
  | NoError
  | PyError (truth : bool) (text : string).

Definition error_truthy (e : pyerror) : bool :=
  match e with
  | NoError => false
  | PyError b _ => b
  end.

Definition error_str (e : pyerror) : string :=
  match e with
  | NoError => "None"
  | PyError _ s => s
  end.

(** ** Exceptions and results *)

Inductive exn :=
  | KeyError (key : string)
  | UnboundLocalError (name : string)
  | AttributeError (name : string)
  | NoOptionError (option : string).

Inductive Result (A : Type) :=
  | Ok (a : A)
  | Raise (e : exn).
Arguments Ok {A} a.
Arguments Raise {A} e.

(** ** Objects *)

(** An IPython console client ([ClientWidget]), as far as the container
    touches it. *)
Record IPythonClient := {
  server_id : string;
  kernel_id : option json;
  (* number of connections of sig_shutdown_kernel_requested *)
  shutdown_connections : nat;
}.

(** The positional arguments of [KernelHandler.tunnel_to_kernel]. *)
Record TunnelArgs := {
  tunnel_connection_info : json;
  tunnel_hostname : string;
  tunnel_sshkey : pyval;
  tunnel_password : pyval;
}.

(** A [PythonWorker].  The five attributes the container adds are absent
    ([None] here) until they are assigned. *)
Record PythonWorker := {
  worker_args : TunnelArgs;
  worker_ipyclient : option nat;
  worker_connection_file : option string;
  worker_hostname : option string;
  worker_sshkey : option pyval;
  worker_password : option pyval;
  (* number of connections of sig_finished to _finish_kernel_connection *)
  worker_finished_connections : nat;
}.

(** What [KernelHandler.from_connection_file] was called with. *)
Record KernelHandler := {
  kh_connection_file : string;
  kh_hostname : string;
  kh_sshkey : pyval;
  kh_password : pyval;
  kh_kernel_ports : json;
}.

(** A file opened with mode ["w"] is empty until something is dumped to it. *)
Inductive file :=
  | EmptyFile
  | JsonFile (doc : json).

(** ** The worker manager *)

(** Modelled from the spec: [WorkerManager] of [spyder/utils/workers.py],
    which is not part of these sources.  The pool has a fixed capacity; a
    started job runs when a slot is free and queues otherwise; a finished
    job frees its slot, which the head of the queue takes. *)
Module WorkerManager.

Record t := {
  max_threads : nat;
  running : list nat;
  queue : list nat;
  finished : list nat;
}.

Definition create (max_threads : nat) : t :=
  {| max_threads := max_threads; running := []; queue := []; finished := [] |}.

(** [worker.start()]. *)
Definition start (j : nat) (p : t) : t :=
  if decide (length (running p) < max_threads p) then
    {| max_threads := max_threads p; running := running p ++ [j];
       queue := queue p; finished := finished p |}
  else
    {| max_threads := max_threads p; running := running p;
       queue := queue p ++ [j]; finished := finished p |}.

(** A running job finishes; a job that is not running cannot. *)
Definition finish (j : nat) (p : t) : t :=
  if decide (j ∈ running p) then
    let still := filter (λ k, k ≠ j) (running p) in
    match queue p with
    | [] =>
        {| max_threads := max_threads p; running := still;
           queue := []; finished := finished p ++ [j] |}
    | k :: q =>
        if decide (length still < max_threads p) then
          {| max_threads := max_threads p; running := still ++ [k];
             queue := q; finished := finished p ++ [j] |}
        else
          {| max_threads := max_threads p; running := still;
             queue := k :: q; finished := finished p ++ [j] |}
    end
  else p.

Inductive event :=
  | Start (j : nat)
  | Finish (j : nat).

Definition step (p : t) (e : event) : t :=
  match e with
  | Start j => start j p
  | Finish j => finish j p
  end.

Definition run (p : t) (es : list event) : t := foldl step p es.

(** A job the pool knows: running, waiting or finished. *)
Definition tracked (p : t) (j : nat) : Prop :=
  j ∈ running p ∨ j ∈ queue p ∨ j ∈ finished p.

End WorkerManager.

(** ** Calls to collaborators, in program order *)

Inductive call :=
  | create_action (text : string)
  | create_menu (title : string)
  | connect_status_signal
  | get_conf_call (option : string) (secure : bool)
  | set_conf_call (option : string) (value : pyval)
  | set_kernel_id (client : nat) (value : json)
  | connect_shutdown_signal (client : nat)
  | new_connection_file_call (path : string)
  | open_for_writing (path : string)
  | json_dump (path : string) (doc : json)
  | create_python_worker_call (worker : nat) (args : TunnelArgs)
  | connect_finished_signal (worker : nat)
  | start_call (worker : nat)
  | show_kernel_error (client : nat) (message : string)
  | from_connection_file (handler : KernelHandler)
  | connect_kernel (client : nat) (handler : KernelHandler).

(** ** The world *)

Record World := {
  conf : gmap string pyval;
  secure_conf : gmap string pyval;
  files : gmap string file;
  connection_files_made : nat;
  clients : gmap nat IPythonClient;
  workers : list PythonWorker;
  pool : WorkerManager.t;
  trace : list call;
}.

Definition with_conf (c : gmap string pyval) (w : World) : World :=
  {| conf := c; secure_conf := secure_conf w; files := files w;
     connection_files_made := connection_files_made w; clients := clients w;
     workers := workers w; pool := pool w; trace := trace w |}.

Definition with_secure_conf (c : gmap string pyval) (w : World) : World :=
  {| conf := conf w; secure_conf := c; files := files w;
     connection_files_made := connection_files_made w; clients := clients w;
     workers := workers w; pool := pool w; trace := trace w |}.

Definition with_files (f : gmap string file) (w : World) : World :=
  {| conf := conf w; secure_conf := secure_conf w; files := f;
     connection_files_made := connection_files_made w; clients := clients w;
     workers := workers w; pool := pool w; trace := trace w |}.

Definition with_connection_files_made (n : nat) (w : World) : World :=
  {| conf := conf w; secure_conf := secure_conf w; files := files w;
     connection_files_made := n; clients := clients w;
     workers := workers w; pool := pool w; trace := trace w |}.

Definition with_clients (c : gmap nat IPythonClient) (w : World) : World :=
  {| conf := conf w; secure_conf := secure_conf w; files := files w;
     connection_files_made := connection_files_made w; clients := c;
     workers := workers w; pool := pool w; trace := trace w |}.

Definition with_workers (l : list PythonWorker) (w : World) : World :=
  {| conf := conf w; secure_conf := secure_conf w; files := files w;
     connection_files_made := connection_files_made w; clients := clients w;
     workers := l; pool := pool w; trace := trace w |}.

Definition with_pool (p : WorkerManager.t) (w : World) : World :=
  {| conf := conf w; secure_conf := secure_conf w; files := files w;
     connection_files_made := connection_files_made w; clients := clients w;
     workers := workers w; pool := p; trace := trace w |}.

Definition with_trace (t : list call) (w : World) : World :=
  {| conf := conf w; secure_conf := secure_conf w; files := files w;
     connection_files_made := connection_files_made w; clients := clients w;
     workers := workers w; pool := pool w; trace := t |}.

(** ** The monad *)

Definition Py (A : Type) : Type := World → Result A * World.

Global Instance Py_ret : MRet Py := λ A a w, (Ok a, w).

Global Instance Py_bind : MBind Py := λ A B f m w,
  match m w with
  | (Ok a, w') => f a w'
  | (Raise e, w') => (Raise e, w')
  end.

Definition raise {A} (e : exn) : Py A := λ w, (Raise e, w).

Definition gets {A} (f : World → A) : Py A := λ w, (Ok (f w), w).

Definition modify (f : World → World) : Py unit := λ w, (Ok tt, f w).

Definition log (c : call) : Py unit := modify (λ w, with_trace (trace w ++ [c]) w).

Definition of_result {A} (r : Result A) : Py A := λ w, (r, w).

(** ** RemoteClientContainer *)

Section container.

(** [AuthenticationMethod.Password] and [AuthenticationMethod.KeyFile]:
    string constants declared in [spyder/plugins/remoteclient/widgets],
    which is not part of these sources. *)
Variables Password KeyFile : string.

(** What the configuration store answers for an option it does not hold
    (given the option and the [secure] flag): the configuration manager is
    not part of these sources either. *)
Variable absent : string → bool → Result pyval.

(** *** The configuration accessors *)

Definition store_get (options secrets : gmap string pyval)
    (option : string) (secure : bool) : Result pyval :=
  match (if secure then secrets else options) !! option with
  | Some v => Ok v
  | None => absent option secure
  end.

(** The value [get_conf(option, secure=secure)] returns in world [w]. *)
Definition read_conf (w : World) (option : string) (secure : bool)
  : Result pyval :=
  store_get (conf w) (secure_conf w) option secure.

(** Modelled from the spec: [get_conf] of the configuration accessor mixin,
    [get(key, secure?) -> value] over a store keyed by path strings. *)
Definition get_conf (option : string) (secure : bool) : Py pyval :=
  log (get_conf_call option secure);;
  w ← gets id;
  of_result (read_conf w option secure).

(** Modelled from the spec: [set_conf], [set(key, value)] on the same
    store. *)
Definition set_conf (option : string) (value : pyval) : Py unit :=
  log (set_conf_call option value);;
  modify (λ w, with_conf (<[option := value]> (conf w)) w).

(** *** Attribute and item access *)

Definition getitem (d : gmap string json) (key : string) : Py json :=
  match d !! key with
  | Some v => mret v
  | None => raise (KeyError key)
  end.

Definition getattr {A} (name : string) (a : option A) : Py A :=
  match a with
  | Some v => mret v
  | None => raise (AttributeError name)
  end.

(** Reading a local variable that no executed statement has assigned. *)
Definition local {A} (name : string) (a : option A) : Py A :=
  match a with
  | Some v => mret v
  | None => raise (UnboundLocalError name)
  end.

Definition client_server_id (ipyclient : nat) : Py string :=
  w ← gets id;
  cl ← getattr "server_id" (clients w !! ipyclient);
  mret (server_id cl).

Definition with_kernel_id (v : json) (cl : IPythonClient) : IPythonClient :=
  {| server_id := server_id cl; kernel_id := Some v;
     shutdown_connections := shutdown_connections cl |}.

Definition with_shutdown_connection (cl : IPythonClient) : IPythonClient :=
  {| server_id := server_id cl; kernel_id := kernel_id cl;
     shutdown_connections := S (shutdown_connections cl) |}.

Definition client_set_kernel_id (ipyclient : nat) (v : json) : Py unit :=
  log (set_kernel_id ipyclient v);;
  modify (λ w, with_clients (alter (with_kernel_id v) ipyclient (clients w)) w).

(** *** setup *)

Definition setup : Py unit :=
  log (create_action "Manage remote connections...");;
  log (create_menu "New console in remote server");;
  log connect_status_signal;;
  modify (with_pool (WorkerManager.create 5)).

(** *** _connect_ipyclient_signals *)

Definition _connect_ipyclient_signals (ipyclient : nat) : Py unit :=
  log (connect_shutdown_signal ipyclient);;
  modify (λ w, with_clients
    (alter with_shutdown_connection ipyclient (clients w)) w).

(** *** KernelHandler and the worker manager, as the container calls them *)

(** Modelled from the spec: [KernelHandler.new_connection_file], which
    returns a fresh, uniquely named path. *)
Definition new_connection_file : Py string :=
  w ← gets id;
  let path := "kernel-" +:+ pretty (connection_files_made w) +:+ ".json" in
  modify (with_connection_files_made (S (connection_files_made w)));;
  log (new_connection_file_call path);;
  mret path.

Definition open_w (path : string) : Py unit :=
  log (open_for_writing path);;
  modify (λ w, with_files (<[path := EmptyFile]> (files w)) w).

Definition dump (doc : json) (path : string) : Py unit :=
  log (json_dump path doc);;
  modify (λ w, with_files (<[path := JsonFile doc]> (files w)) w).

Definition new_worker (args : TunnelArgs) : PythonWorker :=
  {| worker_args := args; worker_ipyclient := None;
     worker_connection_file := None; worker_hostname := None;
     worker_sshkey := None; worker_password := None;
     worker_finished_connections := 0 |}.

Definition create_python_worker (args : TunnelArgs) : Py nat :=
  w ← gets id;
  let j := length (workers w) in
  modify (with_workers (workers w ++ [new_worker args]));;
  log (create_python_worker_call j args);;
  mret j.

Definition update_worker (j : nat) (f : PythonWorker → PythonWorker)
  : Py unit :=
  modify (λ w, with_workers (alter f j (workers w)) w).

Definition set_ipyclient (c : nat) (k : PythonWorker) : PythonWorker :=
  {| worker_args := worker_args k; worker_ipyclient := Some c;
     worker_connection_file := worker_connection_file k;
     worker_hostname := worker_hostname k; worker_sshkey := worker_sshkey k;
     worker_password := worker_password k;
     worker_finished_connections := worker_finished_connections k |}.

Definition set_connection_file (p : string) (k : PythonWorker)
  : PythonWorker :=
  {| worker_args := worker_args k; worker_ipyclient := worker_ipyclient k;
     worker_connection_file := Some p;
     worker_hostname := worker_hostname k; worker_sshkey := worker_sshkey k;
     worker_password := worker_password k;
     worker_finished_connections := worker_finished_connections k |}.

Definition set_hostname (h : string) (k : PythonWorker) : PythonWorker :=
  {| worker_args := worker_args k; worker_ipyclient := worker_ipyclient k;
     worker_connection_file := worker_connection_file k;
     worker_hostname := Some h; worker_sshkey := worker_sshkey k;
     worker_password := worker_password k;
     worker_finished_connections := worker_finished_connections k |}.

Definition set_sshkey (v : pyval) (k : PythonWorker) : PythonWorker :=
  {| worker_args := worker_args k; worker_ipyclient := worker_ipyclient k;
     worker_connection_file := worker_connection_file k;
     worker_hostname := worker_hostname k; worker_sshkey := Some v;
     worker_password := worker_password k;
     worker_finished_connections := worker_finished_connections k |}.

Definition set_password (v : pyval) (k : PythonWorker) : PythonWorker :=
  {| worker_args := worker_args k; worker_ipyclient := worker_ipyclient k;
     worker_connection_file := worker_connection_file k;
     worker_hostname := worker_hostname k; worker_sshkey := worker_sshkey k;
     worker_password := Some v;
     worker_finished_connections := worker_finished_connections k |}.

Definition connect_finished (k : PythonWorker) : PythonWorker :=
  {| worker_args := worker_args k; worker_ipyclient := worker_ipyclient k;
     worker_connection_file := worker_connection_file k;
     worker_hostname := worker_hostname k; worker_sshkey := worker_sshkey k;
     worker_password := worker_password k;
     worker_finished_connections := S (worker_finished_connections k) |}.

Definition start (j : nat) : Py unit :=
  log (start_call j);;
  modify (λ w, with_pool (WorkerManager.start j (pool w)) w).

(** *** on_kernel_started *)

(** The [if]/[elif]/[else] that assigns the locals [sshkey] and
    [password]; a local the taken branch does not assign stays unbound
    ([None] here). *)
Definition resolve_credentials (config_id : string) (auth_method : pyval)
  : Py (option pyval * option pyval) :=
  if eq_str auth_method Password then
    password ← get_conf (config_id +:+ "/password") true;
    let sshkey := PyNone in
    mret (Some sshkey, Some password)
  else if eq_str auth_method KeyFile then
    sshkey ← get_conf
      (config_id +:+ "/" +:+ py_str auth_method +:+ "/keyfile") false;
    passpharse ← get_conf (config_id +:+ "/passpharse") true;
    if truthy passpharse then mret (Some sshkey, Some passpharse)
    else mret (Some sshkey, Some PyNone)
  else
    mret (None, None).

Definition on_kernel_started (ipyclient : nat)
    (kernel_info : gmap string json) : Py unit :=
  config_id ← client_server_id ipyclient;
  (* Connect client's signals *)
  kid ← getitem kernel_info "id";
  client_set_kernel_id ipyclient kid;;
  _connect_ipyclient_signals ipyclient;;
  (* Get authentication method *)
  auth_method ← get_conf (config_id +:+ "/auth_method") false;
  (* Set hostname in the format expected by KernelHandler *)
  address ← get_conf
    (config_id +:+ "/" +:+ py_str auth_method +:+ "/address") false;
  username ← get_conf
    (config_id +:+ "/" +:+ py_str auth_method +:+ "/username") false;
  port ← get_conf
    (config_id +:+ "/" +:+ py_str auth_method +:+ "/port") false;
  let hostname :=
    py_str username +:+ "@" +:+ py_str address +:+ ":" +:+ py_str port in
  (* Get password or keyfile/passphrase *)
  credentials ← resolve_credentials config_id auth_method;
  let sshkey := credentials.1 in
  let password := credentials.2 in
  (* Generate local connection file from kernel info *)
  connection_file ← new_connection_file;
  open_w connection_file;;
  doc ← getitem kernel_info "connection_info";
  dump doc connection_file;;
  (* Open the tunnel in a worker to avoid blocking the UI *)
  connection_info ← getitem kernel_info "connection_info";
  sshkey_value ← local "sshkey" sshkey;
  password_value ← local "password" password;
  worker ← create_python_worker
    {| tunnel_connection_info := connection_info;
       tunnel_hostname := hostname;
       tunnel_sshkey := sshkey_value;
       tunnel_password := password_value |};
  (* Save variables necessary to make the connection in the worker *)
  update_worker worker (set_ipyclient ipyclient);;
  update_worker worker (set_connection_file connection_file);;
  update_worker worker (set_hostname hostname);;
  sshkey_value ← local "sshkey" sshkey;
  update_worker worker (set_sshkey sshkey_value);;
  password_value ← local "password" password;
  update_worker worker (set_password password_value);;
  (* Start worker *)
  update_worker worker connect_finished;;
  log (connect_finished_signal worker);;
  start worker.

(** *** _on_connection_status_changed *)

(** [ConnectionInfo], the typed dictionary of the annotation. *)
Record ConnectionInfo := {
  info_id : string;
  info_status : pyval;
  info_message : pyval;
}.

Definition _on_connection_status_changed (info : ConnectionInfo) : Py unit :=
  let host_id := info_id info in
  let status := info_status info in
  let message := info_message info in
  set_conf (host_id +:+ "/status") status;;
  set_conf (host_id +:+ "/status_message") message.

(** *** _finish_kernel_connection *)

Definition _finish_kernel_connection (worker : PythonWorker)
    (output : json) (error : pyerror) : Py unit :=
  (* Handle errors *)
  if error_truthy error then
    ipyclient ← getattr "ipyclient" (worker_ipyclient worker);
    log (show_kernel_error ipyclient (error_str error))
  else
    (* Create KernelHandler *)
    connection_file ←
      getattr "connection_file" (worker_connection_file worker);
    hostname ← getattr "hostname" (worker_hostname worker);
    sshkey ← getattr "sshkey" (worker_sshkey worker);
    password ← getattr "password" (worker_password worker);
    let kernel_handler :=
      {| kh_connection_file := connection_file; kh_hostname := hostname;
         kh_sshkey := sshkey; kh_password := password;
         kh_kernel_ports := output |} in
    log (from_connection_file kernel_handler);;
    (* Connect client to the kernel *)
    ipyclient ← getattr "ipyclient" (worker_ipyclient worker);
    log (connect_kernel ipyclient kernel_handler).

(** *** Step 3 of the specified operation, and the world a call leaves *)

(** Credential resolution as the specification words it: for Password the
    secret password and no key file; for KeyFile the key file and the
    secret passphrase, which is the password when present, the password
    being absent otherwise.  The last index lists the options fetched. *)
Inductive spec_credentials (w : World) (config_id : string)
    (auth_method : pyval) : pyval → pyval → list call → Prop :=
  | credentials_password (password : pyval) :
      eq_str auth_method Password = true →
      read_conf w (config_id +:+ "/password") true = Ok password →
      spec_credentials w config_id auth_method PyNone password
        [get_conf_call (config_id +:+ "/password") true]
  | credentials_keyfile (keyfile passphrase : pyval) :
      eq_str auth_method Password = false →
      eq_str auth_method KeyFile = true →
      read_conf w (config_id +:+ "/" +:+ py_str auth_method +:+ "/keyfile")
        false = Ok keyfile →
      read_conf w (config_id +:+ "/passpharse") true = Ok passphrase →
      spec_credentials w config_id auth_method keyfile
        (if truthy passphrase then passphrase else PyNone)
        [get_conf_call
           (config_id +:+ "/" +:+ py_str auth_method +:+ "/keyfile") false;
         get_conf_call (config_id +:+ "/passpharse") true].

(** The four options every call reads before the credentials. *)
Definition address_calls (config_id : string) (auth_method : pyval)
  : list call :=
  [get_conf_call (config_id +:+ "/auth_method") false;
   get_conf_call (config_id +:+ "/" +:+ py_str auth_method +:+ "/address")
     false;
   get_conf_call (config_id +:+ "/" +:+ py_str auth_method +:+ "/username")
     false;
   get_conf_call (config_id +:+ "/" +:+ py_str auth_method +:+ "/port")
     false].

(** The world after a call that has submitted a job. *)
Definition submitted (w : World) (ipyclient : nat) (kid doc : json)
    (hostname : string) (sshkey password : pyval) (reads : list call)
  : World :=
  let path := "kernel-" +:+ pretty (connection_files_made w) +:+ ".json" in
  let args :=
    {| tunnel_connection_info := doc; tunnel_hostname := hostname;
       tunnel_sshkey := sshkey; tunnel_password := password |} in
  let j := length (workers w) in
  {| conf := conf w;
     secure_conf := secure_conf w;
     files := <[path := JsonFile doc]> (<[path := EmptyFile]> (files w));
     connection_files_made := S (connection_files_made w);
     clients :=
       alter with_shutdown_connection ipyclient
         (alter (with_kernel_id kid) ipyclient (clients w));
     workers :=
       workers w ++
       [ {| worker_args := args; worker_ipyclient := Some ipyclient;
            worker_connection_file := Some path;
            worker_hostname := Some hostname;
            worker_sshkey := Some sshkey;
            worker_password := Some password;
            worker_finished_connections := 1 |} ];
     pool := WorkerManager.start j (pool w);
     trace :=
       trace w ++
       [set_kernel_id ipyclient kid; connect_shutdown_signal ipyclient] ++
       reads ++
       [new_connection_file_call path; open_for_writing path;
        json_dump path doc; create_python_worker_call j args;
        connect_finished_signal j; start_call j] |}.

End container.

(** ** Running a computation *)

Definition exec {A} (m : Py A) (w : World) : World := (m w).2.
Definition outcome {A} (m : Py A) (w : World) : Result A := (m w).1.

(** The calls a computation adds to the trace of [w]. *)
Definition calls_of {A} (m : Py A) (w : World) : list call :=
  drop (length (trace w)) (trace (exec m w)).

(** Kinds of calls, for counting them. *)
Definition is_get_conf (c : call) : bool :=
  match c with get_conf_call _ _ => true | _ => false end.
Definition is_show_kernel_error (c : call) : bool :=
  match c with show_kernel_error _ _ => true | _ => false end.
Definition is_from_connection_file (c : call) : bool :=
  match c with from_connection_file _ => true | _ => false end.
Definition is_connect_kernel (c : call) : bool :=
  match c with connect_kernel _ _ => true | _ => false end.
Definition is_create_python_worker (c : call) : bool :=
  match c with create_python_worker_call _ _ => true | _ => false end.
Definition is_start (c : call) : bool :=
  match c with start_call _ => true | _ => false end.

Definition count (kind : call → bool) (l : list call) : nat :=
  length (List.filter kind l).

(** ** Sample inputs *)

Module sample.

Definition Password : string := "password_login".
Definition KeyFile : string := "keyfile_login".

(** A store that raises for a missing option and answers the empty string
    for a missing secret. *)
Definition absent (option : string) (secure : bool) : Result pyval :=
  if secure then Ok (PyStr "") else Raise (NoOptionError option).

Definition connection_info : json :=
  JObj [("shell_port", JNum 53001); ("iopub_port", JNum 53002);
        ("ip", JStr "127.0.0.1"); ("key", JStr "a0b1");
        ("transport", JStr "tcp")].

Definition kernel_info : gmap string json :=
  {[ "id" := JStr "7f3c"; "connection_info" := connection_info ]}.

Definition client : IPythonClient :=
  {| server_id := "srv"; kernel_id := None; shutdown_connections := 0 |}.

Definition empty_world : World :=
  {| conf := ∅; secure_conf := ∅; files := ∅; connection_files_made := 0;
     clients := {[ 0 := client ]}; workers := [];
     pool := WorkerManager.create 5; trace := [] |}.

(** A server that authenticates with a key file without passphrase. *)
Definition keyfile_world : World :=
  with_conf
    {[ "srv/auth_method" := PyStr "keyfile_login";
       "srv/keyfile_login/address" := PyStr "10.0.0.7";
       "srv/keyfile_login/username" := PyStr "ana";
       "srv/keyfile_login/port" := PyInt 22;
       "srv/keyfile_login/keyfile" := PyStr "/home/ana/.ssh/id_rsa" ]}
    empty_world.

(** A server that authenticates with a password. *)
Definition password_world : World :=
  {| conf :=
       {[ "srv/auth_method" := PyStr "password_login";
          "srv/password_login/address" := PyStr "10.0.0.7";
          "srv/password_login/username" := PyStr "ana";
          "srv/password_login/port" := PyInt 22 ]};
     secure_conf := {[ "srv/password" := PyStr "hunter2" ]};
     files := ∅; connection_files_made := 0;
     clients := {[ 0 := client ]}; workers := [];
     pool := WorkerManager.create 5; trace := [] |}.

(** A server set to the method the container does not handle. *)
Definition configfile_world : World :=
  with_conf
    {[ "srv/auth_method" := PyStr "configfile_login";
       "srv/configfile_login/address" := PyStr "10.0.0.7";
       "srv/configfile_login/username" := PyStr "ana";
       "srv/configfile_login/port" := PyInt 22 ]}
    empty_world.

Definition tunnel_args : TunnelArgs :=
  {| tunnel_connection_info := connection_info;
     tunnel_hostname := "ana@10.0.0.7:22";
     tunnel_sshkey := PyStr "/home/ana/.ssh/id_rsa";
     tunnel_password := PyNone |}.

(** A job as [on_kernel_started] leaves it. *)
Definition worker : PythonWorker :=
  {| worker_args := tunnel_args; worker_ipyclient := Some 0;
     worker_connection_file := Some "kernel-0.json";
     worker_hostname := Some "ana@10.0.0.7:22";
     worker_sshkey := Some (PyStr "/home/ana/.ssh/id_rsa");
     worker_password := Some PyNone;
     worker_finished_connections := 1 |}.

(** The ports the tunnel worker returns. *)
Definition output : json := JArr [JNum 40001; JNum 40002].

End sample.

(** ** conftest.py *)

Module conftest.

(** *** The regular expression of [get_passed_tests]

    The pattern is: group 1, made of the letters spyder and a starred
    dot; one space; a starred class of the characters other than a space;
    group 2, one of SKIPPED, PASSED and XFAIL.  It is used with [match]:
    anchored at the start of the line, not at its end.  Both stars are
    greedy and backtrack; the dot is any character but a newline. *)

Definition newline : ascii := "010"%char.
Definition space : ascii := " "%char.

(** [strip_prefix p s] is [Some r] when [s] is [p] followed by [r]. *)
Fixpoint strip_prefix (p s : string) : option string :=
  match p, s with
  | EmptyString, _ => Some s
  | String a p', String b s' =>
      if Ascii.eqb a b then strip_prefix p' s' else None
  | String _ _, EmptyString => None
  end.

Definition starts_with (p s : string) : bool :=
  match strip_prefix p s with Some _ => true | None => false end.

Definition outcomes : list string := ["SKIPPED"; "PASSED"; "XFAIL"].

(** Group 2 at the start of [s]. *)
Definition match_outcome (s : string) : bool :=
  existsb (λ k, starts_with k s) outcomes.

(** The starred class and group 2 at the start of [s]: the star first
    takes one more character, and gives it back when what follows
    fails. *)
Fixpoint match_status (s : string) : bool :=
  match s with
  | EmptyString => match_outcome s
  | String c s' =>
      (if Ascii.eqb c space then false else match_status s')
      || match_outcome s
  end.

(** The pattern after the letters spyder, at the start of [s]; the
    result is what the starred dot has taken. *)
Fixpoint match_rest (s : string) : option string :=
  match s with
  | EmptyString => None
  | String c s' =>
      match (if Ascii.eqb c newline then None else match_rest s') with
      | Some g => Some (String c g)
      | None =>
          if Ascii.eqb c space && match_status s' then Some EmptyString
          else None
      end
  end.

(** [test_re.match(line)], as [match.group(1)] when there is a match. *)
Definition test_re_match (line : string) : option string :=
  match strip_prefix "spyder" line with
  | Some rest =>
      match match_rest rest with
      | Some g => Some ("spyder" +:+ g)
      | None => None
      end
  | None => None
  end.

(** *** The pattern, as a description of the lines it matches *)

Fixpoint has_char (c : ascii) (s : string) : bool :=
  match s with
  | EmptyString => false
  | String a s' => Ascii.eqb a c || has_char c s'
  end.

(** [line] reads as the letters spyder, [name] without a newline, a space,
    a word without a space, one of the three outcomes, and anything. *)
Definition parses (line name : string) : Prop :=
  has_char newline name = false
  ∧ ∃ word outcome rest,
      has_char space word = false
      ∧ outcome ∈ outcomes
      ∧ line = "spyder" +:+ name +:+ " " +:+ word +:+ outcome +:+ rest.

(** [group1] is the first group of the match on [line]: of all the ways to
    read the line, the one that gives the starred dot the most. *)
Definition is_test_line (line group1 : string) : Prop :=
  ∃ name,
    group1 = "spyder" +:+ name
    ∧ parses line name
    ∧ ∀ name', parses line name' → String.length name' ≤ String.length name.

(** What the starred class and the second group accept. *)
Definition status_spec (s : string) : Prop :=
  ∃ word k r,
    has_char space word = false ∧ k ∈ outcomes ∧ s = word +:+ k +:+ r.

(** What the pattern accepts after the letters spyder. *)
Definition rest_spec (s g : string) : Prop :=
  has_char newline g = false
  ∧ ∃ t, s = g +:+ " " +:+ t ∧ match_status t = true.

(** *** Files *)

(** [f.readlines()] on the decoded text of a file: every line keeps its
    newline; a last line without one is kept too. *)
Fixpoint readlines_from (line text : string) : list string :=
  match text with
  | EmptyString =>
      match line with EmptyString => [] | _ => [String.rev line] end
  | String c text' =>
      if Ascii.eqb c newline then
        String.rev (String c line) :: readlines_from EmptyString text'
      else readlines_from (String c line) text'
  end.

Definition readlines (text : string) : list string :=
  readlines_from EmptyString text.

(** *** get_passed_tests *)

(** The function returns a [set] on one path and a [list] on the other. *)
Inductive collection :=
  | PySet (tests : gset string)
  | PyList (tests : list string).

(** [x in c]. *)
Definition contains (c : collection) (x : string) : bool :=
  match c with
  | PySet s => bool_decide (x ∈ s)
  | PyList l => bool_decide (x ∈ l)
  end.

(** The working directory maps the name of a regular file to its text. *)
Definition get_passed_tests (cwd : gmap string string) : collection :=
  match cwd !! "pytest_log.txt" with
  | Some text =>
      let logfile := readlines text in
      (* Detect all tests that passed before. *)
      PySet (foldl (λ tests line,
                      match test_re_match line with
                      | Some group1 => tests ∪ {[group1]}
                      | None => tests
                      end) ∅ logfile)
  | None => PyList []
  end.

(** *** pytest_collection_modifyitems *)

Inductive marker :=
  | skip (reason : string).

(** A collected item: its identity as an object, its node id, and the
    markers added to it. *)
Record Item := {
  item_id : nat;
  nodeid : string;
  own_markers : list marker;
}.

Definition add_marker (m : marker) (item : Item) : Item :=
  {| item_id := item_id item; nodeid := nodeid item;
     own_markers := own_markers item ++ [m] |}.

(** [item in l], which compares objects by identity. *)
Definition item_in (item : Item) (l : list Item) : bool :=
  existsb (λ x, Nat.eqb (item_id x) (item_id item)) l.

(** [needle in s] for strings. *)
Fixpoint is_substring (needle s : string) : bool :=
  starts_with needle s
  || match s with
     | EmptyString => false
     | String _ s' => is_substring needle s'
     end.

Record Platform := {
  environ : gmap string string;
  os_name : string;
  sys_platform : string;
}.

(** [os.environ.get(name)] as a condition: set, and not empty. *)
Definition environ_get (p : Platform) (name : string) : bool :=
  match environ p !! name with
  | Some v => negb (String.eqb v "")
  | None => false
  end.

Definition skip_slow : marker := skip "Need --run-slow option to run".
Definition skip_fast : marker := skip "Don't need --run-slow option to run".
Definition skip_passed : marker := skip "Test passed in previous runs".

Section modifyitems.

(** [lt_times i n tenths] stands for [i < n * percentage], a comparison
    of an integer with a binary floating-point product, for the
    percentage [0.tenths]; it is left abstract. *)
Variable lt_times : nat → nat → nat → bool.

Definition percentage (p : Platform) : nat :=
  if String.eqb (os_name p) "nt" then 4
  else if String.eqb (sys_platform p) "darwin" then 3
  else 3.

(** The loop over [enumerate(ipyconsole_items)], from index [i] on. *)
Fixpoint slow_share (i n tenths : nat) (ipyconsole_items : list Item)
  : list Item :=
  match ipyconsole_items with
  | [] => []
  | item :: rest =>
      if lt_times i n tenths then item :: slow_share (S i) n tenths rest
      else slow_share (S i) n tenths rest
  end.

Definition slow_items (p : Platform) (items : list Item) : list Item :=
  if environ_get p "CI" && negb (environ_get p "SPYDER_TEST_REMOTE_CLIENT")
  then
    let slow_items :=
      List.filter (λ item, is_substring "test_mainwindow" (nodeid item))
        items in
    let ipyconsole_items :=
      List.filter (λ item, is_substring "test_ipythonconsole" (nodeid item))
        items in
    slow_items
    ++ slow_share 0 (length ipyconsole_items) (percentage p) ipyconsole_items
  else [].

(** The body of the last loop, for one item. *)
Definition mark (slow_option : bool) (slow : list Item)
    (passed_tests : collection) (item : Item) : Item :=
  let item :=
    if slow_option then
      if negb (item_in item slow) then add_marker skip_fast item else item
    else
      if item_in item slow then add_marker skip_slow item else item in
  if contains passed_tests (nodeid item) then add_marker skip_passed item
  else item.

(** [slow_option] is [config.getoption("--run-slow")]; the result is
    [items] after the call.  The items of a collection are distinct
    objects, so marking one leaves the others as they are. *)
Definition pytest_collection_modifyitems (p : Platform)
    (cwd : gmap string string) (slow_option : bool) (items : list Item)
  : list Item :=
  let passed_tests := get_passed_tests cwd in
  let slow := slow_items p items in
  mark slow_option slow passed_tests <$> items.

End modifyitems.

(** *** Sample inputs *)

Definition sample_cwd : gmap string string :=
  {[ "pytest_log.txt" :=
       "spyder/tests/test_a.py::test_one PASSED [ 33%]" +:+ String newline
       ("spyder/tests/test_a.py::test_two FAILED [ 66%]" +:+ String newline
        ("spyder/tests/test_a.py::test_three[a b] SKIPPED [100%]" +:+
         String newline "")) ]}.

Definition sample_platform : Platform :=
  {| environ := ∅; os_name := "posix"; sys_platform := "linux" |}.

Definition sample_items : list Item :=
  [ {| item_id := 0; nodeid := "spyder/tests/test_a.py::test_one";
       own_markers := [] |};
    {| item_id := 1; nodeid := "spyder/tests/test_a.py::test_two";
       own_markers := [] |} ].

End conftest.

(** ** More kinds of calls *)

Definition is_set_conf (c : call) : bool :=
  match c with set_conf_call _ _ => true | _ => false end.

(** Calls on a console client that only the completion callback makes. *)
Definition is_completion_call (c : call) : bool :=
  is_show_kernel_error c || is_from_connection_file c || is_connect_kernel c.

(** ** setup_remote_consoles_submenu *)

Module submenu.

Inductive menu_section :=
  | ManagerSection
  | ConsolesSection.

Inductive action :=
  | ManageConnections
  | NewConsole (config_id : string).

(** Calls on the submenu and on the registry of actions.  A console action
    carries its name, its text, and the server id its trigger emits with
    [sig_create_ipyclient_requested]. *)
Inductive menu_call :=
  | clear_actions
  | create_console_action (name text emits : string)
  | add_item_to_menu (item : action) (section : menu_section)
  | render.

Definition is_create_console_action (c : menu_call) : bool :=
  match c with create_console_action _ _ _ => true | _ => false end.

Section submenu.

Variable absent : string → bool → Result pyval.

(** The calls of one turn of the loop for a server that is read well. *)
Definition console_calls (config_id : string) (name : pyval)
  : list menu_call :=
  [create_console_action config_id
     ("New console in " +:+ py_str name +:+ " server") config_id;
   add_item_to_menu (NewConsole config_id) ConsolesSection].

(** The loop [for config_id in servers], with the calls made until it ends
    or a read raises. *)
Fixpoint console_actions (w : World) (servers : list string)
  : Result unit * list menu_call :=
  match servers with
  | [] => (Ok tt, [])
  | config_id :: rest =>
      match read_conf absent w (config_id +:+ "/auth_method") false with
      | Raise e => (Raise e, [])
      | Ok auth_method =>
          match read_conf absent w
                  (config_id +:+ "/" +:+ py_str auth_method +:+ "/name")
                  false with
          | Raise e => (Raise e, [])
          | Ok name =>
              let later := console_actions w rest in
              (later.1, console_calls config_id name ++ later.2)
          end
      end
  end.

(** [servers] lists the keys of the dictionary that
    [get_conf("servers", default={})] answers, in the order of iteration;
    the result is the outcome and the calls made. *)
Definition setup_remote_consoles_submenu (render_flag : bool)
    (servers : list string) (w : World) : Result unit * list menu_call :=
  let loop := console_actions w servers in
  ( loop.1,
    [clear_actions; add_item_to_menu ManageConnections ManagerSection]
    ++ loop.2
    ++ match loop.1 with
       | Ok _ => if render_flag then [render] else []
       | Raise _ => []
       end ).

(** A server the loop reads well, with the name it finds. *)
Definition readable (w : World) (server : string * pyval) : Prop :=
  ∃ auth_method,
    read_conf absent w (server.1 +:+ "/auth_method") false = Ok auth_method
    ∧ read_conf absent w
        (server.1 +:+ "/" +:+ py_str auth_method +:+ "/name") false
      = Ok server.2.

(** A server at which the loop stops with [e]. *)
Definition unreadable (w : World) (config_id : string) (e : exn) : Prop :=
  read_conf absent w (config_id +:+ "/auth_method") false = Raise e
  ∨ ∃ auth_method,
      read_conf absent w (config_id +:+ "/auth_method") false = Ok auth_method
      ∧ read_conf absent w
          (config_id +:+ "/" +:+ py_str auth_method +:+ "/name") false
        = Raise e.

(** The calls of the loop over servers read well. *)
Definition consoles (servers : list (string * pyval)) : list menu_call :=
  concat ((λ server, console_calls server.1 server.2) <$> servers).

End submenu.

End submenu.

(** ** More sample inputs *)

Module sample_more.

Definition kernel_info_without_id : gmap string json :=
  {[ "connection_info" := sample.connection_info ]}.

Definition kernel_info_without_connection : gmap string json :=
  {[ "id" := JStr "7f3c" ]}.

Definition active : ConnectionInfo :=
  {| info_id := "srv"; info_status := PyStr "active";
     info_message := PyStr "Connected" |}.

Definition stopped : ConnectionInfo :=
  {| info_id := "srv"; info_status := PyStr "inactive";
     info_message := PyStr "Stopped" |}.

Definition other_active : ConnectionInfo :=
  {| info_id := "lab"; info_status := PyStr "active";
     info_message := PyStr "Connected" |}.

(** Two servers with a name, and a third one without options. *)
Definition named_world : World :=
  with_conf
    {[ "srv/auth_method" := PyStr "password_login";
       "srv/password_login/name" := PyStr "Cluster";
       "lab/auth_method" := PyStr "keyfile_login";
       "lab/keyfile_login/name" := PyStr "Lab" ]}
    sample.empty_world.

Definition ci_platform : conftest.Platform :=
  {| conftest.environ := {[ "CI" := "true" ]};
     conftest.os_name := "posix"; conftest.sys_platform := "linux" |}.

Definition ci_items : list conftest.Item :=
  [ {| conftest.item_id := 0;
       conftest.nodeid := "spyder/app/tests/test_mainwindow.py::test_one";
       conftest.own_markers := [] |};
    {| conftest.item_id := 1;
       conftest.nodeid := "spyder/tests/test_a.py::test_two";
       conftest.own_markers := [] |} ].

End sample_more.

(** * Properties *)

(** ** Strings *)

Lemma append_inj_r (s a b : string) : s +:+ a = s +:+ b → a = b.
Proof.
  induction s as [|c s IH]; simpl; [done|].
  intros H. injection H as H. by apply IH.
Qed.

Lemma status_keys_differ (host_id : string) :
  host_id +:+ "/status" ≠ host_id +:+ "/status_message".
Proof. intros H. by apply append_inj_r in H. Qed.

(** ** The status sink *)

Lemma status_changed_run (info : ConnectionInfo) (w : World) :
  _on_connection_status_changed info w =
  (Ok tt,
   with_conf
     (<[info_id info +:+ "/status_message" := info_message info]>
        (<[info_id info +:+ "/status" := info_status info]> (conf w)))
     (with_trace
        (trace w ++
           [set_conf_call (info_id info +:+ "/status") (info_status info);
            set_conf_call (info_id info +:+ "/status_message")
                          (info_message info)]) w)).
Proof.
  unfold _on_connection_status_changed, set_conf, log, modify, with_conf,
    with_trace, mbind, Py_bind; simpl.
  by rewrite <- app_assoc.
Qed.

(** C6. Persisting a status update is idempotent on the configuration
    store: handling the same update a second time leaves both the options
    and the secrets as the first handling left them.  Each handling returns
    normally, makes exactly two [set_conf] calls, for the options
    [id/status] and [id/status_message], and leaves the status and the
    message stored under these two options. *)
Theorem status_persistence_idempotent (info : ConnectionInfo) (w : World) :
  let once := exec (_on_connection_status_changed info) w in
  let twice := exec (_on_connection_status_changed info) once in
  conf twice = conf once
  ∧ secure_conf twice = secure_conf once
  ∧ secure_conf once = secure_conf w
  ∧ outcome (_on_connection_status_changed info) w = Ok tt
  ∧ calls_of (_on_connection_status_changed info) w =
      [set_conf_call (info_id info +:+ "/status") (info_status info);
       set_conf_call (info_id info +:+ "/status_message") (info_message info)]
  ∧ conf once !! (info_id info +:+ "/status") = Some (info_status info)
  ∧ conf once !! (info_id info +:+ "/status_message")
      = Some (info_message info)
  ∧ ∀ option, option ≠ info_id info +:+ "/status" →
      option ≠ info_id info +:+ "/status_message" →
      conf once !! option = conf w !! option.
Proof.
  unfold exec, outcome, calls_of, exec. rewrite !status_changed_run. simpl.
  pose proof (status_keys_differ (info_id info)) as Hne.
  repeat split.
  - apply map_eq. intros k. rewrite !lookup_insert.
    repeat case_decide; congruence.
  - by rewrite drop_app_length.
  - rewrite lookup_insert_ne by done. by rewrite lookup_insert_eq.
  - by rewrite lookup_insert_eq.
  - intros k H1 H2. by rewrite !lookup_insert_ne.
Qed.

(** ** The completion callback *)

Lemma calls_of_with_trace {A} (m : Py A) (w : World) (r : Result A)
    (t : list call) :
  m w = (r, with_trace (trace w ++ t) w) → calls_of m w = t.
Proof.
  intros H. unfold calls_of, exec. rewrite H. simpl. apply drop_app_length.
Qed.

Lemma finish_success_run (worker : PythonWorker) (output : json)
    (error : pyerror) (ipyclient : nat) (connection_file hostname : string)
    (sshkey password : pyval) (w : World) :
  error_truthy error = false →
  worker_ipyclient worker = Some ipyclient →
  worker_connection_file worker = Some connection_file →
  worker_hostname worker = Some hostname →
  worker_sshkey worker = Some sshkey →
  worker_password worker = Some password →
  let handler :=
    {| kh_connection_file := connection_file; kh_hostname := hostname;
       kh_sshkey := sshkey; kh_password := password;
       kh_kernel_ports := output |} in
  _finish_kernel_connection worker output error w =
  (Ok tt,
   with_trace
     (trace w ++ [from_connection_file handler; connect_kernel ipyclient handler])
     w).
Proof.
  intros He Hc Hf Hh Hk Hp. unfold _finish_kernel_connection.
  rewrite He, Hc, Hf, Hh, Hk, Hp.
  unfold log, modify, with_trace, mbind, Py_bind; simpl.
  by rewrite <- app_assoc.
Qed.

Lemma finish_failure_run (worker : PythonWorker) (output : json)
    (error : pyerror) (ipyclient : nat) (w : World) :
  error_truthy error = true →
  worker_ipyclient worker = Some ipyclient →
  _finish_kernel_connection worker output error w =
  (Ok tt,
   with_trace (trace w ++ [show_kernel_error ipyclient (error_str error)]) w).
Proof.
  intros He Hc. unfold _finish_kernel_connection. by rewrite He, Hc.
Qed.

(** C1. When a job completes with an error that is not set ([None], or any
    value that tests false), the callback returns normally after exactly two
    calls: it builds one kernel handler from the connection file, hostname,
    key and password saved on the job and from the worker output as kernel
    ports, and passes that handler to [connect_kernel] of the job's client.
    It never calls [show_kernel_error], and changes nothing else. *)
Theorem finish_success_attaches_once (worker : PythonWorker) (output : json)
    (error : pyerror) (ipyclient : nat) (connection_file hostname : string)
    (sshkey password : pyval) (w : World) :
  error_truthy error = false →
  worker_ipyclient worker = Some ipyclient →
  worker_connection_file worker = Some connection_file →
  worker_hostname worker = Some hostname →
  worker_sshkey worker = Some sshkey →
  worker_password worker = Some password →
  let handler :=
    {| kh_connection_file := connection_file; kh_hostname := hostname;
       kh_sshkey := sshkey; kh_password := password;
       kh_kernel_ports := output |} in
  let finish := _finish_kernel_connection worker output error in
  outcome finish w = Ok tt
  ∧ calls_of finish w =
      [from_connection_file handler; connect_kernel ipyclient handler]
  ∧ count is_from_connection_file (calls_of finish w) = 1
  ∧ count is_connect_kernel (calls_of finish w) = 1
  ∧ count is_show_kernel_error (calls_of finish w) = 0
  ∧ exec finish w = with_trace (trace w ++ calls_of finish w) w.
Proof.
  intros He Hc Hf Hh Hk Hp handler finish.
  pose proof (finish_success_run worker output error ipyclient connection_file
                hostname sshkey password w He Hc Hf Hh Hk Hp) as Hrun.
  fold handler finish in Hrun.
  rewrite (calls_of_with_trace _ _ _ _ Hrun).
  unfold outcome, exec. by rewrite Hrun.
Qed.

Lemma finish_success_attaches_once_witness :
  let handler :=
    {| kh_connection_file := "kernel-0.json";
       kh_hostname := "ana@10.0.0.7:22";
       kh_sshkey := PyStr "/home/ana/.ssh/id_rsa"; kh_password := PyNone;
       kh_kernel_ports := sample.output |} in
  calls_of
    (_finish_kernel_connection sample.worker sample.output NoError)
    sample.keyfile_world =
  [from_connection_file handler; connect_kernel 0 handler].
Proof.
  exact (proj1 (proj2 (finish_success_attaches_once
    sample.worker sample.output NoError 0 "kernel-0.json" "ana@10.0.0.7:22"
    (PyStr "/home/ana/.ssh/id_rsa") PyNone sample.keyfile_world
    eq_refl eq_refl eq_refl eq_refl eq_refl eq_refl))).
Defined.




(** ** Starting a kernel connection *)

Lemma alter_app_last {A} (f : A → A) (l : list A) (x : A) :
  alter f (length l) (l ++ [x]) = l ++ [f x].
Proof. induction l as [|y l IH]; simpl; [done|]. by f_equal. Qed.

(** Evaluation of the monadic code down to the collaborators' answers. *)
Ltac py_eval :=
  lazy beta iota zeta delta
    [on_kernel_started client_server_id client_set_kernel_id
     _connect_ipyclient_signals resolve_credentials new_connection_file
     open_w dump create_python_worker update_worker start get_conf
     read_conf getitem getattr local raise log modify gets of_result
     mbind Py_bind mret Py_ret
     with_conf with_secure_conf with_files with_connection_files_made
     with_clients with_workers with_pool with_trace
     conf secure_conf files connection_files_made clients workers pool trace
     exec outcome calls_of fst snd id].

Ltac py_eval_in H :=
  lazy beta iota zeta delta
    [on_kernel_started client_server_id client_set_kernel_id
     _connect_ipyclient_signals resolve_credentials new_connection_file
     open_w dump create_python_worker update_worker start get_conf
     read_conf getitem getattr local raise log modify gets of_result
     mbind Py_bind mret Py_ret
     with_conf with_secure_conf with_files with_connection_files_made
     with_clients with_workers with_pool with_trace
     conf secure_conf files connection_files_made clients workers pool trace
     exec outcome calls_of fst snd id] in H.

(** The answer the evaluation of [t] is waiting for. *)
Ltac pending t :=
  lazymatch t with
  | store_get _ _ _ _ _ => t
  | _ !! _ => t
  | eq_str _ _ => t
  | truthy _ => t
  | match ?x with _ => _ end => pending x
  | ?f _ => pending f
  end.

(** Case analysis on the answers, in program order, on a run [H]. *)
Ltac run_cases_in H :=
  repeat (py_eval_in H;
          lazymatch type of H with
          | ?lhs = _ =>
              let x := pending lhs in
              lazymatch goal with
              | Hx : x = _ |- _ => rewrite Hx in H
              | _ => destruct x eqn:?
              end
          end);
  py_eval_in H.

Ltac same_world :=
  lazy beta iota zeta delta
    [submitted address_calls
     conf secure_conf files connection_files_made clients workers pool trace];
  lazymatch goal with
  | |- (_, _) = (_, _) => f_equal
  | |- _ => idtac
  end;
  f_equal;
  [ rewrite !alter_app_last; reflexivity
  | rewrite <- ?app_assoc; reflexivity ].

Section kernel_started.

Variables Password KeyFile : string.
Variable absent : string → bool → Result pyval.

Local Abbreviation on_kernel_started :=
  (on_kernel_started Password KeyFile absent).
Local Abbreviation read_conf := (read_conf absent).
Local Abbreviation spec_credentials := (spec_credentials Password KeyFile absent).

Lemma started_ok (ipyclient : nat) (cl : IPythonClient)
    (kernel_info : gmap string json) (kid doc : json)
    (auth_method address username port sshkey password : pyval)
    (reads : list call) (w : World) :
  clients w !! ipyclient = Some cl →
  kernel_info !! "id" = Some kid →
  kernel_info !! "connection_info" = Some doc →
  read_conf w (server_id cl +:+ "/auth_method") false = Ok auth_method →
  read_conf w (server_id cl +:+ "/" +:+ py_str auth_method +:+ "/address")
    false = Ok address →
  read_conf w (server_id cl +:+ "/" +:+ py_str auth_method +:+ "/username")
    false = Ok username →
  read_conf w (server_id cl +:+ "/" +:+ py_str auth_method +:+ "/port")
    false = Ok port →
  spec_credentials w (server_id cl) auth_method sshkey password reads →
  on_kernel_started ipyclient kernel_info w =
  (Ok tt,
   submitted w ipyclient kid doc
     (py_str username +:+ "@" +:+ py_str address +:+ ":" +:+ py_str port)
     sshkey password
     (address_calls (server_id cl) auth_method ++ reads)).
Proof.
  intros Hcl Hid Hdoc Ham Ha Hu Hp Hcred.
  destruct w as [cf sc fs n cls wks pl tr].
  py_eval_in Hcl; py_eval_in Ham; py_eval_in Ha; py_eval_in Hu;
    py_eval_in Hp.
  py_eval. rewrite Hcl. py_eval. rewrite Hid. py_eval. rewrite Ham.
  py_eval. rewrite Ha. py_eval. rewrite Hu. py_eval. rewrite Hp.
  destruct Hcred as [pw HP Hpw | kf pp HP HK Hkf Hpp].
  - py_eval_in Hpw. py_eval. rewrite HP. py_eval. rewrite Hpw. py_eval.
    rewrite Hdoc. same_world.
  - py_eval_in Hkf. py_eval_in Hpp. py_eval. rewrite HP, HK. py_eval.
    rewrite Hkf. py_eval. rewrite Hpp. py_eval.
    destruct (truthy pp); py_eval; rewrite Hdoc; same_world.
Qed.

Lemma credentials_keyfile_present (w : World) (config_id : string)
    (auth_method keyfile passphrase : pyval) :
  eq_str auth_method Password = false →
  eq_str auth_method KeyFile = true →
  read_conf w (config_id +:+ "/" +:+ py_str auth_method +:+ "/keyfile")
    false = Ok keyfile →
  read_conf w (config_id +:+ "/passpharse") true = Ok passphrase →
  truthy passphrase = true →
  spec_credentials w config_id auth_method keyfile passphrase
    [get_conf_call
       (config_id +:+ "/" +:+ py_str auth_method +:+ "/keyfile") false;
     get_conf_call (config_id +:+ "/passpharse") true].
Proof.
  intros HP HK Hkf Hpp Ht.
  pose proof (credentials_keyfile Password KeyFile absent w config_id
                auth_method keyfile passphrase HP HK Hkf Hpp) as H.
  by rewrite Ht in H.
Qed.

Lemma credentials_keyfile_absent (w : World) (config_id : string)
    (auth_method keyfile passphrase : pyval) :
  eq_str auth_method Password = false →
  eq_str auth_method KeyFile = true →
  read_conf w (config_id +:+ "/" +:+ py_str auth_method +:+ "/keyfile")
    false = Ok keyfile →
  read_conf w (config_id +:+ "/passpharse") true = Ok passphrase →
  truthy passphrase = false →
  spec_credentials w config_id auth_method keyfile PyNone
    [get_conf_call
       (config_id +:+ "/" +:+ py_str auth_method +:+ "/keyfile") false;
     get_conf_call (config_id +:+ "/passpharse") true].
Proof.
  intros HP HK Hkf Hpp Ht.
  pose proof (credentials_keyfile Password KeyFile absent w config_id
                auth_method keyfile passphrase HP HK Hkf Hpp) as H.
  by rewrite Ht in H.
Qed.

Lemma started_ok_inv (ipyclient : nat) (kernel_info : gmap string json)
    (w w' : World) :
  on_kernel_started ipyclient kernel_info w = (Ok tt, w') →
  ∃ cl kid doc auth_method address username port sshkey password reads,
    clients w !! ipyclient = Some cl
    ∧ kernel_info !! "id" = Some kid
    ∧ kernel_info !! "connection_info" = Some doc
    ∧ read_conf w (server_id cl +:+ "/auth_method") false = Ok auth_method
    ∧ read_conf w
        (server_id cl +:+ "/" +:+ py_str auth_method +:+ "/address") false
      = Ok address
    ∧ read_conf w
        (server_id cl +:+ "/" +:+ py_str auth_method +:+ "/username") false
      = Ok username
    ∧ read_conf w
        (server_id cl +:+ "/" +:+ py_str auth_method +:+ "/port") false
      = Ok port
    ∧ spec_credentials w (server_id cl) auth_method sshkey password reads
    ∧ w' = submitted w ipyclient kid doc
             (py_str username +:+ "@" +:+ py_str address +:+ ":"
                +:+ py_str port)
             sshkey password
             (address_calls (server_id cl) auth_method ++ reads).
Proof.
  intros Hrun. destruct w as [cf sc fs n cls wks pl tr].
  run_cases_in Hrun; try discriminate Hrun.
  all: injection Hrun as <-.
  all: eexists _, _, _, _, _, _, _, _, _, _.
  all: split_and!; try eassumption; try reflexivity.
  - by apply credentials_password.
  - same_world.
  - by eapply credentials_keyfile_present.
  - same_world.
  - by eapply credentials_keyfile_absent.
  - same_world.
Qed.

Lemma calls_of_submitted (w : World) (ipyclient : nat) (kid doc : json)
    (hostname : string) (sshkey password : pyval) (reads : list call) :
  drop (length (trace w))
    (trace (submitted w ipyclient kid doc hostname sshkey password reads)) =
  [set_kernel_id ipyclient kid; connect_shutdown_signal ipyclient] ++
  reads ++
  [new_connection_file_call
     ("kernel-" +:+ pretty (connection_files_made w) +:+ ".json");
   open_for_writing
     ("kernel-" +:+ pretty (connection_files_made w) +:+ ".json");
   json_dump
     ("kernel-" +:+ pretty (connection_files_made w) +:+ ".json") doc;
   create_python_worker_call (length (workers w))
     {| tunnel_connection_info := doc; tunnel_hostname := hostname;
        tunnel_sshkey := sshkey; tunnel_password := password |};
   connect_finished_signal (length (workers w));
   start_call (length (workers w))].
Proof. unfold submitted. cbn [trace]. apply drop_app_length. Qed.

(** The run of a call whose authentication method is neither of the two
    handled ones, when everything else is available. *)
Lemma unsupported_run (ipyclient : nat) (cl : IPythonClient)
    (kernel_info : gmap string json) (kid doc : json)
    (auth_method address username port : pyval) (w : World) :
  clients w !! ipyclient = Some cl →
  kernel_info !! "id" = Some kid →
  kernel_info !! "connection_info" = Some doc →
  read_conf w (server_id cl +:+ "/auth_method") false = Ok auth_method →
  read_conf w (server_id cl +:+ "/" +:+ py_str auth_method +:+ "/address")
    false = Ok address →
  read_conf w (server_id cl +:+ "/" +:+ py_str auth_method +:+ "/username")
    false = Ok username →
  read_conf w (server_id cl +:+ "/" +:+ py_str auth_method +:+ "/port")
    false = Ok port →
  eq_str auth_method Password = false →
  eq_str auth_method KeyFile = false →
  let path := "kernel-" +:+ pretty (connection_files_made w) +:+ ".json" in
  on_kernel_started ipyclient kernel_info w =
  (Raise (UnboundLocalError "sshkey"),
   {| conf := conf w;
      secure_conf := secure_conf w;
      files := <[path := JsonFile doc]> (<[path := EmptyFile]> (files w));
      connection_files_made := S (connection_files_made w);
      clients :=
        alter with_shutdown_connection ipyclient
          (alter (with_kernel_id kid) ipyclient (clients w));
      workers := workers w;
      pool := pool w;
      trace :=
        trace w ++
        [set_kernel_id ipyclient kid; connect_shutdown_signal ipyclient] ++
        address_calls (server_id cl) auth_method ++
        [new_connection_file_call path; open_for_writing path;
         json_dump path doc] |}).
Proof.
  intros Hcl Hid Hdoc Ham Ha Hu Hp HP HK path. subst path.
  destruct w as [cf sc fs n cls wks pl tr].
  py_eval_in Hcl; py_eval_in Ham; py_eval_in Ha; py_eval_in Hu;
    py_eval_in Hp.
  py_eval. rewrite Hcl. py_eval. rewrite Hid. py_eval. rewrite Ham.
  py_eval. rewrite Ha. py_eval. rewrite Hu. py_eval. rewrite Hp.
  py_eval. rewrite HP, HK. py_eval. rewrite Hdoc.
  lazy beta iota zeta delta [address_calls].
  do 2 f_equal. by rewrite <- !app_assoc.
Qed.

(** Whatever else happens, such a call stops with an exception before a
    worker is created. *)
Lemma unsupported_never_submits (ipyclient : nat) (cl : IPythonClient)
    (kernel_info : gmap string json) (auth_method : pyval)
    (w w' : World) (r : Result unit) :
  clients w !! ipyclient = Some cl →
  read_conf w (server_id cl +:+ "/auth_method") false = Ok auth_method →
  eq_str auth_method Password = false →
  eq_str auth_method KeyFile = false →
  on_kernel_started ipyclient kernel_info w = (r, w') →
  (∃ e, r = Raise e)
  ∧ workers w' = workers w
  ∧ pool w' = pool w
  ∧ ∃ t, trace w' = trace w ++ t
         ∧ count is_create_python_worker t = 0
         ∧ count is_start t = 0
         ∧ count is_show_kernel_error t = 0
         ∧ count is_get_conf t ≤ 4.
Proof.
  intros Hcl Ham HP HK Hrun.
  destruct w as [cf sc fs n cls wks pl tr].
  py_eval_in Hcl; py_eval_in Ham.
  run_cases_in Hrun; injection Hrun as <- <-.
  all: split; [by eexists|].
  all: split; [reflexivity|].
  all: split; [reflexivity|].
  all: cbn [trace]; rewrite <- ?app_assoc.
  all: first [ exists []; split; [symmetry; apply app_nil_r|]
             | eexists; split; [reflexivity|] ].
  all: vm_compute; repeat split; lia.
Qed.

(** C3, amended. For every call whose resolved authentication method is
    neither Password nor KeyFile, credential resolution reads no option
    and leaves [sshkey] and [password] unassigned; the call then stops with
    an exception: no worker is created or started, the worker manager is
    left as it was, and no error is shown on the client.  When the kernel
    information and the address, username and port options are available,
    the connection file is written first, and the exception is the
    [UnboundLocalError] for [sshkey], raised where the worker's arguments
    are evaluated. *)
Theorem unsupported_method_raises (ipyclient : nat) (cl : IPythonClient)
    (kernel_info : gmap string json) (auth_method : pyval) (w : World) :
  clients w !! ipyclient = Some cl →
  read_conf w (server_id cl +:+ "/auth_method") false = Ok auth_method →
  eq_str auth_method Password = false →
  eq_str auth_method KeyFile = false →
  let m := on_kernel_started ipyclient kernel_info in
  (∃ e, outcome m w = Raise e)
  ∧ workers (exec m w) = workers w
  ∧ pool (exec m w) = pool w
  ∧ count is_create_python_worker (calls_of m w) = 0
  ∧ count is_start (calls_of m w) = 0
  ∧ count is_show_kernel_error (calls_of m w) = 0
  ∧ count is_get_conf (calls_of m w) ≤ 4
  ∧ ∀ kid doc address username port,
      kernel_info !! "id" = Some kid →
      kernel_info !! "connection_info" = Some doc →
      read_conf w
        (server_id cl +:+ "/" +:+ py_str auth_method +:+ "/address") false
        = Ok address →
      read_conf w
        (server_id cl +:+ "/" +:+ py_str auth_method +:+ "/username") false
        = Ok username →
      read_conf w
        (server_id cl +:+ "/" +:+ py_str auth_method +:+ "/port") false
        = Ok port →
      let path :=
        "kernel-" +:+ pretty (connection_files_made w) +:+ ".json" in
      outcome m w = Raise (UnboundLocalError "sshkey")
      ∧ calls_of m w =
          [set_kernel_id ipyclient kid; connect_shutdown_signal ipyclient]
          ++ address_calls (server_id cl) auth_method
          ++ [new_connection_file_call path; open_for_writing path;
              json_dump path doc]
      ∧ files (exec m w) !! path = Some (JsonFile doc).
Proof.
  intros Hcl Ham HP HK m.
  destruct (m w) as [r w'] eqn:Hrun.
  destruct (unsupported_never_submits _ _ _ _ _ _ _ Hcl Ham HP HK Hrun)
    as (He & Hw & Hpool & t & Ht & Hc1 & Hc2 & Hc3 & Hc4).
  unfold outcome, calls_of, exec. rewrite Hrun. cbn [fst snd].
  rewrite Ht, drop_app_length. split_and!; try done.
  intros kid doc address username port Hid Hdoc Ha Hu Hp.
  pose proof (unsupported_run _ _ _ _ _ _ _ _ _ _ Hcl Hid Hdoc Ham Ha Hu Hp
                HP HK) as Hrun'.
  fold m in Hrun'. rewrite Hrun in Hrun'. injection Hrun' as -> ->.
  cbn [trace files] in *. apply app_inv_head in Ht as <-.
  split_and!; try done. by rewrite lookup_insert_eq.
Qed.

(** C4. For the KeyFile method the key file and the secret passphrase are
    fetched, the job is submitted with that key file, and its password is
    the passphrase when the passphrase tests true and [None] otherwise:
    [None] for an empty passphrase and for one the store answers [None]
    for, and never the empty string. *)
Theorem keyfile_password_resolution (ipyclient : nat) (cl : IPythonClient)
    (kernel_info : gmap string json) (kid doc : json)
    (auth_method address username port keyfile passphrase : pyval)
    (w : World) :
  clients w !! ipyclient = Some cl →
  kernel_info !! "id" = Some kid →
  kernel_info !! "connection_info" = Some doc →
  read_conf w (server_id cl +:+ "/auth_method") false = Ok auth_method →
  eq_str auth_method Password = false →
  eq_str auth_method KeyFile = true →
  read_conf w (server_id cl +:+ "/" +:+ py_str auth_method +:+ "/address")
    false = Ok address →
  read_conf w (server_id cl +:+ "/" +:+ py_str auth_method +:+ "/username")
    false = Ok username →
  read_conf w (server_id cl +:+ "/" +:+ py_str auth_method +:+ "/port")
    false = Ok port →
  read_conf w (server_id cl +:+ "/" +:+ py_str auth_method +:+ "/keyfile")
    false = Ok keyfile →
  read_conf w (server_id cl +:+ "/passpharse") true = Ok passphrase →
  let m := on_kernel_started ipyclient kernel_info in
  let password := if truthy passphrase then passphrase else PyNone in
  outcome m w = Ok tt
  ∧ get_conf_call
      (server_id cl +:+ "/" +:+ py_str auth_method +:+ "/keyfile") false
      ∈ calls_of m w
  ∧ get_conf_call (server_id cl +:+ "/passpharse") true ∈ calls_of m w
  ∧ (∃ worker,
       workers (exec m w) = workers w ++ [worker]
       ∧ tunnel_sshkey (worker_args worker) = keyfile
       ∧ tunnel_password (worker_args worker) = password
       ∧ worker_sshkey worker = Some keyfile
       ∧ worker_password worker = Some password)
  ∧ password ≠ PyStr ""
  ∧ (truthy passphrase = true → password = passphrase)
  ∧ (passphrase = PyStr "" ∨ passphrase = PyNone → password = PyNone).
Proof.
  intros Hcl Hid Hdoc Ham HP HK Ha Hu Hp Hkf Hpp m password.
  pose proof (started_ok _ _ _ _ _ _ _ _ _ _ _ _ _ Hcl Hid Hdoc Ham Ha Hu Hp
                (credentials_keyfile _ _ _ _ _ _ _ _ HP HK Hkf Hpp))
    as Hrun.
  fold m password in Hrun.
  unfold outcome, calls_of, exec. rewrite Hrun. cbn [fst snd].
  rewrite calls_of_submitted. split_and!.
  - done.
  - unfold address_calls. set_solver.
  - unfold address_calls. set_solver.
  - eexists. by split_and!.
  - subst password. destruct passphrase as [| |z|s]; simpl; try done.
    + by destruct b.
    + by destruct (negb (z =? 0)%Z).
    + destruct s; simpl; done.
  - intros Ht. subst password. by rewrite Ht.
  - intros [-> | ->]; done.
Qed.

(** C5. Whenever a call submits a job, the hostname it passes to the
    tunnel, and saves on the job, is the username, an at sign, the
    address, a colon and the port, each being what the configuration store
    answers for the option of that name under the server id of the client
    and the authentication method. *)
Theorem hostname_format (ipyclient : nat) (kernel_info : gmap string json)
    (w w' : World) :
  on_kernel_started ipyclient kernel_info w = (Ok tt, w') →
  ∃ cl auth_method address username port worker,
    clients w !! ipyclient = Some cl
    ∧ read_conf w (server_id cl +:+ "/auth_method") false = Ok auth_method
    ∧ read_conf w
        (server_id cl +:+ "/" +:+ py_str auth_method +:+ "/address") false
      = Ok address
    ∧ read_conf w
        (server_id cl +:+ "/" +:+ py_str auth_method +:+ "/username") false
      = Ok username
    ∧ read_conf w
        (server_id cl +:+ "/" +:+ py_str auth_method +:+ "/port") false
      = Ok port
    ∧ workers w' = workers w ++ [worker]
    ∧ tunnel_hostname (worker_args worker) =
        py_str username +:+ "@" +:+ py_str address +:+ ":" +:+ py_str port
    ∧ worker_hostname worker = Some (tunnel_hostname (worker_args worker))
    ∧ create_python_worker_call (length (workers w)) (worker_args worker)
        ∈ trace w'.
Proof.
  intros Hrun.
  destruct (started_ok_inv _ _ _ _ Hrun)
    as (cl & kid & doc & am & a & u & p & k & pw & reads & Hcl & Hid & Hdoc
        & Ham & Ha & Hu & Hp & Hcred & ->).
  eexists cl, am, a, u, p, _. split_and!; try done.
  unfold submitted. cbn [trace]. set_solver.
Qed.

(** C9. On every call for a client with a server id and kernel
    information with an id, the first two effects are the assignment of
    that id to the kernel id of the client and the connection of its
    shutdown-request signal; every configuration read, the connection
    file and the worker come after them.  Both have happened when the call
    ends, whether it returns or raises. *)
Theorem client_connected_first (ipyclient : nat) (cl : IPythonClient)
    (kernel_info : gmap string json) (kid : json) (w : World) :
  clients w !! ipyclient = Some cl →
  kernel_info !! "id" = Some kid →
  let m := on_kernel_started ipyclient kernel_info in
  (∃ rest,
     calls_of m w =
       set_kernel_id ipyclient kid :: connect_shutdown_signal ipyclient
       :: rest)
  ∧ clients (exec m w) !! ipyclient =
      Some {| server_id := server_id cl; kernel_id := Some kid;
              shutdown_connections := S (shutdown_connections cl) |}.
Proof.
  intros Hcl Hid m.
  destruct (m w) as [r w'] eqn:Hrun.
  unfold calls_of, exec. rewrite Hrun. cbn [fst snd]. subst m.
  destruct w as [cf sc fs n cls wks pl tr].
  py_eval_in Hcl.
  run_cases_in Hrun; injection Hrun as <- <-.
  all: py_eval; rewrite <- ?app_assoc, ?drop_app_length.
  all: split; [eexists; reflexivity|].
  all: by rewrite !lookup_alter_eq, Hcl.
Qed.

(** C7. A call that submits a job leaves, on the job itself, the client,
    the path of the connection file it wrote, and the hostname, key and
    password it passed to the tunnel.  The completion callback of that job,
    in any later world and for any output and error, works from these
    saved values alone: it returns normally, calls [get_conf] not once,
    leaves the configuration store as it is, and does the same whatever
    the store then holds. *)
Theorem job_keeps_connection_values (ipyclient : nat)
    (kernel_info : gmap string json) (w w' : World) :
  on_kernel_started ipyclient kernel_info w = (Ok tt, w') →
  ∃ worker connection_file hostname sshkey password,
    workers w' = workers w ++ [worker]
    ∧ worker_ipyclient worker = Some ipyclient
    ∧ worker_connection_file worker = Some connection_file
    ∧ worker_hostname worker = Some hostname
    ∧ worker_sshkey worker = Some sshkey
    ∧ worker_password worker = Some password
    ∧ tunnel_hostname (worker_args worker) = hostname
    ∧ tunnel_sshkey (worker_args worker) = sshkey
    ∧ tunnel_password (worker_args worker) = password
    ∧ files w' !! connection_file =
        Some (JsonFile (tunnel_connection_info (worker_args worker)))
    ∧ ∀ (output : json) (error : pyerror) (later : World),
        let finish := _finish_kernel_connection worker output error in
        let handler :=
          {| kh_connection_file := connection_file;
             kh_hostname := hostname; kh_sshkey := sshkey;
             kh_password := password; kh_kernel_ports := output |} in
        outcome finish later = Ok tt
        ∧ calls_of finish later =
            (if error_truthy error
             then [show_kernel_error ipyclient (error_str error)]
             else [from_connection_file handler;
                   connect_kernel ipyclient handler])
        ∧ count is_get_conf (calls_of finish later) = 0
        ∧ conf (exec finish later) = conf later
        ∧ secure_conf (exec finish later) = secure_conf later
        ∧ ∀ options secrets,
            let changed :=
              with_conf options (with_secure_conf secrets later) in
            outcome finish changed = outcome finish later
            ∧ calls_of finish changed = calls_of finish later.
Proof.
  intros Hrun.
  destruct (started_ok_inv _ _ _ _ Hrun)
    as (cl & kid & doc & am & a & u & p & k & pw & reads & Hcl & Hid & Hdoc
        & Ham & Ha & Hu & Hp & Hcred & ->).
  eexists _, _, _, _, _. split_and!; try reflexivity.
  { unfold submitted. cbn [files worker_args tunnel_connection_info].
    by rewrite lookup_insert_eq. }
  intros output error later finish handler.
  assert (∀ world,
    finish world =
    (Ok tt,
     with_trace
       (trace world ++
          (if error_truthy error
           then [show_kernel_error ipyclient (error_str error)]
           else [from_connection_file handler;
                 connect_kernel ipyclient handler])) world)) as Hfinish.
  { intros world. subst finish handler.
    destruct (error_truthy error) eqn:He.
    - by apply finish_failure_run.
    - by apply finish_success_run. }
  assert (∀ world,
    calls_of finish world =
      (if error_truthy error
       then [show_kernel_error ipyclient (error_str error)]
       else [from_connection_file handler;
             connect_kernel ipyclient handler])) as Hcalls.
  { intros world. eapply calls_of_with_trace, Hfinish. }
  unfold outcome, exec. rewrite !Hcalls, !Hfinish. cbn [fst snd].
  split_and!; try done.
  - by destruct (error_truthy error).
  - intros options secrets. by rewrite Hcalls, Hfinish.
Qed.

End kernel_started.

(** ** The calls above, on the sample servers *)

(** C3, as stated, fails: with the method set to the one the container does
    not handle, the call raises, and creates and starts no worker. *)
Lemma configfile_method_raises :
  let m :=
    on_kernel_started sample.Password sample.KeyFile sample.absent 0
      sample.kernel_info in
  outcome m sample.configfile_world = Raise (UnboundLocalError "sshkey")
  ∧ count is_create_python_worker (calls_of m sample.configfile_world) = 0
  ∧ count is_start (calls_of m sample.configfile_world) = 0.
Proof. vm_compute. done. Qed.

Lemma unsupported_method_raises_witness :
  let m :=
    on_kernel_started sample.Password sample.KeyFile sample.absent 0
      sample.kernel_info in
  outcome m sample.configfile_world = Raise (UnboundLocalError "sshkey")
  ∧ calls_of m sample.configfile_world =
      [set_kernel_id 0 (JStr "7f3c"); connect_shutdown_signal 0;
       get_conf_call "srv/auth_method" false;
       get_conf_call "srv/configfile_login/address" false;
       get_conf_call "srv/configfile_login/username" false;
       get_conf_call "srv/configfile_login/port" false;
       new_connection_file_call "kernel-0.json";
       open_for_writing "kernel-0.json";
       json_dump "kernel-0.json" sample.connection_info]
  ∧ files (exec m sample.configfile_world) !! "kernel-0.json" =
      Some (JsonFile sample.connection_info).
Proof.
  apply (proj2 (proj2 (proj2 (proj2 (proj2 (proj2 (proj2
    (unsupported_method_raises sample.Password sample.KeyFile sample.absent
       0 sample.client sample.kernel_info (PyStr "configfile_login")
       sample.configfile_world eq_refl eq_refl eq_refl eq_refl))))))))
    with (address := PyStr "10.0.0.7") (username := PyStr "ana")
         (port := PyInt 22); vm_compute; reflexivity.
Defined.

Lemma keyfile_password_resolution_witness :
  ∃ worker,
    workers
      (exec (on_kernel_started sample.Password sample.KeyFile sample.absent 0
               sample.kernel_info) sample.keyfile_world) = [worker]
    ∧ tunnel_sshkey (worker_args worker) = PyStr "/home/ana/.ssh/id_rsa"
    ∧ tunnel_password (worker_args worker) = PyNone
    ∧ worker_sshkey worker = Some (PyStr "/home/ana/.ssh/id_rsa")
    ∧ worker_password worker = Some PyNone.
Proof.
  apply (proj1 (proj2 (proj2 (proj2
    (keyfile_password_resolution sample.Password sample.KeyFile sample.absent
       0 sample.client sample.kernel_info (JStr "7f3c")
       sample.connection_info (PyStr "keyfile_login") (PyStr "10.0.0.7")
       (PyStr "ana") (PyInt 22) (PyStr "/home/ana/.ssh/id_rsa") (PyStr "")
       sample.keyfile_world eq_refl eq_refl eq_refl eq_refl eq_refl eq_refl
       eq_refl eq_refl eq_refl eq_refl eq_refl))))).
Defined.

Lemma password_world_run :
  on_kernel_started sample.Password sample.KeyFile sample.absent 0
    sample.kernel_info sample.password_world =
  (Ok tt,
   exec (on_kernel_started sample.Password sample.KeyFile sample.absent 0
           sample.kernel_info) sample.password_world).
Proof. vm_compute. reflexivity. Defined.

Lemma hostname_format_witness :
  ∃ cl auth_method address username port worker,
    clients sample.password_world !! 0 = Some cl
    ∧ read_conf sample.absent sample.password_world
        (server_id cl +:+ "/auth_method") false = Ok auth_method
    ∧ read_conf sample.absent sample.password_world
        (server_id cl +:+ "/" +:+ py_str auth_method +:+ "/address") false
      = Ok address
    ∧ read_conf sample.absent sample.password_world
        (server_id cl +:+ "/" +:+ py_str auth_method +:+ "/username") false
      = Ok username
    ∧ read_conf sample.absent sample.password_world
        (server_id cl +:+ "/" +:+ py_str auth_method +:+ "/port") false
      = Ok port
    ∧ workers
        (exec (on_kernel_started sample.Password sample.KeyFile sample.absent
                 0 sample.kernel_info) sample.password_world)
      = workers sample.password_world ++ [worker]
    ∧ tunnel_hostname (worker_args worker) =
        py_str username +:+ "@" +:+ py_str address +:+ ":" +:+ py_str port
    ∧ worker_hostname worker = Some (tunnel_hostname (worker_args worker))
    ∧ create_python_worker_call (length (workers sample.password_world))
        (worker_args worker)
        ∈ trace
            (exec (on_kernel_started sample.Password sample.KeyFile
                     sample.absent 0 sample.kernel_info)
               sample.password_world).
Proof.
  exact (hostname_format sample.Password sample.KeyFile sample.absent 0
           sample.kernel_info sample.password_world _ password_world_run).
Defined.

Example password_world_hostname :
  tunnel_hostname <$> (worker_args <$>
    last (workers
      (exec (on_kernel_started sample.Password sample.KeyFile sample.absent 0
               sample.kernel_info) sample.password_world)))
  = Some "ana@10.0.0.7:22".
Proof. vm_compute. reflexivity. Qed.

Lemma job_keeps_connection_values_witness :
  ∃ worker connection_file hostname sshkey password,
    workers
      (exec (on_kernel_started sample.Password sample.KeyFile sample.absent 0
               sample.kernel_info) sample.password_world)
    = workers sample.password_world ++ [worker]
    ∧ worker_ipyclient worker = Some 0
    ∧ worker_connection_file worker = Some connection_file
    ∧ worker_hostname worker = Some hostname
    ∧ worker_sshkey worker = Some sshkey
    ∧ worker_password worker = Some password.
Proof.
  destruct (job_keeps_connection_values sample.Password sample.KeyFile
              sample.absent 0 sample.kernel_info sample.password_world _
              password_world_run)
    as (worker & connection_file & hostname & sshkey & password & H1 & H2
        & H3 & H4 & H5 & H6 & _).
  exists worker, connection_file, hostname, sshkey, password.
  exact (conj H1 (conj H2 (conj H3 (conj H4 (conj H5 H6))))).
Defined.

Lemma client_connected_first_witness :
  clients
    (exec (on_kernel_started sample.Password sample.KeyFile sample.absent 0
             sample.kernel_info) sample.configfile_world) !! 0 =
  Some {| server_id := "srv"; kernel_id := Some (JStr "7f3c");
          shutdown_connections := 1 |}.
Proof.
  exact (proj2 (client_connected_first sample.Password sample.KeyFile
                  sample.absent 0 sample.client sample.kernel_info
                  (JStr "7f3c") sample.configfile_world eq_refl eq_refl)).
Defined.

(** ** The worker manager *)

Module pool_facts.
Import WorkerManager.

Lemma start_max_threads (j : nat) (p : t) :
  max_threads (start j p) = max_threads p.
Proof. unfold start. by case_decide. Qed.

Lemma finish_max_threads (j : nat) (p : t) :
  max_threads (finish j p) = max_threads p.
Proof. unfold finish. repeat case_match; done. Qed.

Lemma step_max_threads (p : t) (e : event) :
  max_threads (step p e) = max_threads p.
Proof. destruct e; [apply start_max_threads | apply finish_max_threads]. Qed.

Lemma run_max_threads (es : list event) (p : t) :
  max_threads (run p es) = max_threads p.
Proof.
  revert p. induction es as [|e es IH]; intros p; [done|].
  unfold run in *. simpl. by rewrite IH, step_max_threads.
Qed.

Lemma start_bounded (j : nat) (p : t) :
  length (running p) ≤ max_threads p →
  length (running (start j p)) ≤ max_threads (start j p).
Proof.
  intros H. unfold start. case_decide; simpl; [|done].
  rewrite length_app. simpl. lia.
Qed.

Lemma finish_bounded (j : nat) (p : t) :
  length (running p) ≤ max_threads p →
  length (running (finish j p)) ≤ max_threads (finish j p).
Proof.
  intros H. unfold finish. case_decide; [|done].
  pose proof (length_filter (λ k, k ≠ j) (running p)) as Hle.
  destruct (queue p) as [|k q]; simpl; [lia|].
  case_decide; simpl; [|lia].
  rewrite length_app. simpl. lia.
Qed.

Lemma run_bounded (es : list event) (p : t) :
  length (running p) ≤ max_threads p →
  length (running (run p es)) ≤ max_threads (run p es).
Proof.
  revert p. induction es as [|e es IH]; intros p H; [done|].
  unfold run in *. simpl. apply IH.
  destruct e; [by apply start_bounded | by apply finish_bounded].
Qed.

Lemma start_tracks (j : nat) (p : t) : tracked (start j p) j.
Proof.
  unfold tracked, start. case_decide; simpl; set_solver.
Qed.

Lemma start_keeps (j k : nat) (p : t) : tracked p k → tracked (start j p) k.
Proof.
  unfold tracked, start. intros H.
  case_decide; simpl; rewrite ?elem_of_app; tauto.
Qed.

Lemma finish_keeps (j k : nat) (p : t) : tracked p k → tracked (finish j p) k.
Proof.
  unfold tracked, finish. intros H.
  case_decide; [|done].
  assert (k ∈ running p → k = j ∨ k ∈ filter (λ i, i ≠ j) (running p))
    as Hrun.
  { intros Hk. destruct (decide (k = j)); [by left|].
    right. by apply list_elem_of_filter. }
  assert (k ∈ running p → ∀ l : list nat, k ∈ finished p ++ [j]
            ∨ k ∈ filter (λ i, i ≠ j) (running p) ++ l) as Hleft.
  { intros Hk l. rewrite !elem_of_app, list_elem_of_singleton.
    destruct (Hrun Hk); auto. }
  assert (k ∈ finished p → k ∈ finished p ++ [j]) as Hdone.
  { intros Hk. apply elem_of_app. by left. }
  destruct (queue p) as [|i q] eqn:Hq; simpl.
  - destruct H as [H | [H | H]]; [|by inversion H|auto].
    destruct (Hleft H []) as [Hk | Hk]; [auto|].
    rewrite app_nil_r in Hk. auto.
  - case_decide; simpl.
    + destruct H as [H | [H | H]]; [| |auto].
      * destruct (Hleft H [i]) as [Hk | Hk]; auto.
      * apply elem_of_cons in H as [-> | H]; [|auto].
        left. apply elem_of_app. right. by left.
    + destruct H as [H | [H | H]]; [|auto|auto].
      destruct (Hleft H []) as [Hk | Hk]; [auto|].
      rewrite app_nil_r in Hk. auto.
Qed.

Lemma step_keeps (e : event) (k : nat) (p : t) :
  tracked p k → tracked (step p e) k.
Proof. destruct e; [apply start_keeps | apply finish_keeps]. Qed.

Lemma run_keeps (es : list event) (k : nat) (p : t) :
  tracked p k → tracked (run p es) k.
Proof.
  revert p. induction es as [|e es IH]; intros p H; [done|].
  unfold run in *. simpl. by apply IH, step_keeps.
Qed.

Lemma run_tracks (es : list event) (j : nat) (p : t) :
  Start j ∈ es → tracked (run p es) j.
Proof.
  revert p. induction es as [|e es IH]; intros p H; [by inversion H|].
  unfold run in *. simpl.
  apply elem_of_cons in H as [<- | H]; [|by apply IH].
  apply (run_keeps es). apply start_tracks.
Qed.

End pool_facts.

(** C8. The worker manager that [setup] creates never runs more than five
    jobs at once, whatever jobs are started and finish and in whatever
    order; a job started while five are running is put at the end of the
    queue; and every started job is running, queued or finished: none is
    rejected or dropped. *)
Theorem at_most_five_tunnels_run (w : World)
    (es : list WorkerManager.event) :
  let p := WorkerManager.run (pool (exec setup w)) es in
  WorkerManager.max_threads p = 5
  ∧ length (WorkerManager.running p) ≤ 5
  ∧ (∀ j, WorkerManager.Start j ∈ es →
          j ∈ WorkerManager.running p ∨ j ∈ WorkerManager.queue p
          ∨ j ∈ WorkerManager.finished p)
  ∧ (∀ j, length (WorkerManager.running p) = 5 →
          WorkerManager.running (WorkerManager.start j p)
            = WorkerManager.running p
          ∧ WorkerManager.queue (WorkerManager.start j p)
            = WorkerManager.queue p ++ [j])
  ∧ (∀ j, length (WorkerManager.running p) < 5 →
          WorkerManager.running (WorkerManager.start j p)
            = WorkerManager.running p ++ [j]).
Proof.
  intros p.
  assert (pool (exec setup w) = WorkerManager.create 5) as Hsetup by done.
  assert (WorkerManager.max_threads p = 5) as Hmax.
  { subst p. by rewrite pool_facts.run_max_threads, Hsetup. }
  split_and!.
  - done.
  - rewrite <- Hmax. subst p. apply pool_facts.run_bounded.
    rewrite Hsetup. simpl. lia.
  - intros j Hj. by apply pool_facts.run_tracks.
  - intros j Hfull. unfold WorkerManager.start.
    rewrite Hmax, Hfull. by case_decide; [lia|].
  - intros j Hfree. unfold WorkerManager.start.
    rewrite Hmax. by case_decide; [|lia].
Qed.

(** Seven jobs started at once: five run, two wait. *)
Example seven_tunnels :
  let p :=
    WorkerManager.run (pool (exec setup sample.empty_world))
      (WorkerManager.Start <$> [0; 1; 2; 3; 4; 5; 6]) in
  WorkerManager.running p = [0; 1; 2; 3; 4]
  ∧ WorkerManager.queue p = [5; 6].
Proof. vm_compute. done. Qed.

(** ** The log of passed tests *)

Module conftest_facts.
Import conftest.

Lemma append_nil (s : string) : "" +:+ s = s.
Proof. reflexivity. Qed.

Lemma append_cons (c : ascii) (s t : string) :
  String c s +:+ t = String c (s +:+ t).
Proof. reflexivity. Qed.

Ltac str_simpl := rewrite ?append_cons, ?append_nil in *.

Lemma strip_prefix_spec (p s r : string) :
  strip_prefix p s = Some r ↔ s = p +:+ r.
Proof.
  revert s. induction p as [|a p IH]; intros s; simpl; str_simpl.
  - destruct s; simpl; split; congruence.
  - destruct s as [|b s]; [split; discriminate|].
    destruct (Ascii.eqb_spec a b) as [->|Hne].
    + rewrite IH. split; congruence.
    + split; [discriminate | congruence].
Qed.

Lemma starts_with_spec (p s : string) :
  starts_with p s = true ↔ ∃ r, s = p +:+ r.
Proof.
  unfold starts_with. destruct (strip_prefix p s) as [r|] eqn:H.
  - apply strip_prefix_spec in H. split; eauto.
  - split; [discriminate|]. intros [r Hr].
    apply strip_prefix_spec in Hr. congruence.
Qed.

Lemma match_outcome_spec (s : string) :
  match_outcome s = true ↔ ∃ k r, k ∈ outcomes ∧ s = k +:+ r.
Proof.
  unfold match_outcome. rewrite existsb_exists. split.
  - intros (k & Hk & Hs). apply starts_with_spec in Hs as [r ->].
    exists k, r. split; [by apply list_elem_of_In | done].
  - intros (k & r & Hk & ->). exists k. split; [by apply list_elem_of_In|].
    apply starts_with_spec. eauto.
Qed.

Lemma match_status_outcome (s : string) :
  match_outcome s = true → match_status s = true.
Proof. intros H. destruct s; simpl; rewrite H; by rewrite ?orb_true_r. Qed.

Lemma match_status_spec (s : string) : match_status s = true ↔ status_spec s.
Proof.
  split.
  - induction s as [|c s IH].
    + simpl. intros (k & r & Hk & Hs)%match_outcome_spec.
      by exists "", k, r.
    + simpl. intros [H | H]%orb_true_iff.
      * destruct (Ascii.eqb c space) eqn:Hc; [discriminate|].
        destruct (IH H) as (word & k & r & Hw & Hk & ->).
        exists (String c word), k, r. simpl. by rewrite Hc, Hw.
      * apply match_outcome_spec in H as (k & r & Hk & Hs).
        by exists "", k, r.
  - intros (word & k & r & Hw & Hk & ->).
    induction word as [|c word IH].
    + apply match_status_outcome, match_outcome_spec. by exists k, r.
    + simpl in Hw. apply orb_false_iff in Hw as [Hc Hw].
      str_simpl. simpl. rewrite Hc. by rewrite (IH Hw).
Qed.

Lemma match_rest_complete (s g : string) :
  rest_spec s g → is_Some (match_rest s).
Proof.
  revert s. induction g as [|c g IH]; intros s (Hg & t & -> & Ht);
    str_simpl; simpl.
  - destruct (match_rest t); [done|]. by rewrite Ht.
  - simpl in Hg. apply orb_false_iff in Hg as [Hc Hg]. rewrite Hc.
    destruct (IH (g +:+ " " +:+ t)) as [g1 Hg1].
    { split; [done|]. by exists t. }
    str_simpl. by rewrite Hg1.
Qed.

Lemma match_rest_sound (s g : string) :
  match_rest s = Some g →
  rest_spec s g
  ∧ ∀ g', rest_spec s g' → String.length g' ≤ String.length g.
Proof.
  revert g. induction s as [|c s IH]; intros g; simpl; [discriminate|].
  destruct (Ascii.eqb c newline) eqn:Hc.
  - destruct (Ascii.eqb_spec c newline) as [Hnl|]; [|discriminate].
    subst c. discriminate.
  - destruct (match_rest s) as [g1|] eqn:Hs.
    + intros [= <-]. destruct (IH g1 eq_refl) as ((Hg1 & t & -> & Ht) & Hmax).
      split.
      * split; [simpl; by rewrite Hc, Hg1|]. by exists t.
      * intros [|c' g'] (Hg' & t' & Heq & Ht'); simpl; [lia|].
        str_simpl. simpl in Hg'. injection Heq as <- Heq.
        apply orb_false_iff in Hg' as [_ Hg'].
        apply le_n_S, Hmax. split; [done|]. by exists t'.
    + destruct (Ascii.eqb_spec c space) as [Hsp|Hsp]; simpl; [|discriminate].
      destruct (match_status s) eqn:Ht; [|discriminate].
      intros [= <-]. subst c. split.
      * split; [done|]. by exists s.
      * intros [|c' g'] (Hg' & t' & Heq & Ht'); simpl; [lia|].
        str_simpl. simpl in Hg'. injection Heq as <- Heq.
        apply orb_false_iff in Hg' as [_ Hg'].
        destruct (match_rest_complete s g') as [? ?]; [|congruence].
        split; [done|]. by exists t'.
Qed.

Lemma append_same_length (a b x y : string) :
  a +:+ x = b +:+ y → String.length a = String.length b → a = b.
Proof.
  revert b. induction a as [|c a IH]; intros [|d b]; simpl; try done.
  str_simpl. intros [= -> H] [= Hlen]. f_equal. by apply IH.
Qed.

Lemma parses_rest (line name : string) :
  parses line name ↔
  ∃ s, strip_prefix "spyder" line = Some s ∧ rest_spec s name.
Proof.
  split.
  - intros (Hn & word & k & r & Hw & Hk & ->).
    exists (name +:+ " " +:+ word +:+ k +:+ r). split; [done|].
    split; [done|]. exists (word +:+ k +:+ r). split; [done|].
    apply match_status_spec. by exists word, k, r.
  - intros (s & Hs & Hn & t & -> & Ht).
    apply strip_prefix_spec in Hs as ->.
    apply match_status_spec in Ht as (word & k & r & Hw & Hk & ->).
    split; [done|]. by exists word, k, r.
Qed.

(** The matcher computes the first group of the pattern. *)
Lemma test_re_match_spec (line group1 : string) :
  test_re_match line = Some group1 ↔ is_test_line line group1.
Proof.
  unfold test_re_match, is_test_line. split.
  - destruct (strip_prefix "spyder" line) as [s|] eqn:Hs; [|discriminate].
    destruct (match_rest s) as [g|] eqn:Hg; [|discriminate].
    intros [= <-]. apply match_rest_sound in Hg as [Hspec Hmax].
    exists g. split_and!; [done| |].
    + apply parses_rest. by exists s.
    + intros name' (s' & Hs' & Hspec')%parses_rest.
      rewrite Hs in Hs'. injection Hs' as <-. by apply Hmax.
  - intros (name & -> & (s & Hs & Hspec)%parses_rest & Hmax). rewrite Hs.
    destruct (match_rest_complete s name Hspec) as [g Hg]. rewrite Hg.
    destruct (match_rest_sound s g Hg) as [Hspec' Hmax'].
    do 2 f_equal.
    destruct Hspec as (Hn & t & Ht & Hst), Hspec' as (Hg' & t' & Ht' & Hst').
    apply (append_same_length g name (" " +:+ t') (" " +:+ t));
      [congruence|].
    apply Nat.le_antisymm.
    + apply Hmax, parses_rest. exists s. split; [done|].
      split; [done|]. by exists t'.
    + apply Hmax'. split; [done|]. by exists t.
Qed.

Lemma passed_tests_fold (lines : list string) (acc : gset string)
    (t : string) :
  t ∈ foldl (λ tests line,
               match test_re_match line with
               | Some group1 => tests ∪ {[group1]}
               | None => tests
               end) acc lines
  ↔ t ∈ acc ∨ ∃ line, line ∈ lines ∧ test_re_match line = Some t.
Proof.
  revert acc. induction lines as [|line lines IH]; intros acc; simpl.
  - split; [by left|]. intros [H | (l & Hl & _)]; [done | by inversion Hl].
  - rewrite IH. destruct (test_re_match line) as [g|] eqn:Hg.
    + rewrite elem_of_union, elem_of_singleton. split.
      * intros [[H | ->] | (l & Hl & Ht)].
        -- by left.
        -- right. exists line. split; [left | done].
        -- right. exists l. split; [by right | done].
      * intros [H | (l & Hl & Ht)]; [by left; left|].
        apply elem_of_cons in Hl as [-> | Hl].
        -- left. right. congruence.
        -- right. by exists l.
    + split.
      * intros [H | (l & Hl & Ht)]; [by left|].
        right. exists l. split; [by right | done].
      * intros [H | (l & Hl & Ht)]; [by left|].
        apply elem_of_cons in Hl as [-> | Hl]; [congruence|].
        right. by exists l.
Qed.

Lemma mark_spec (slow_option : bool) (slow : list Item)
    (passed_tests : collection) (item : Item) :
  ∃ speed,
    (speed = [] ∨ speed = [skip_fast] ∨ speed = [skip_slow])
    ∧ item_id (mark slow_option slow passed_tests item) = item_id item
    ∧ nodeid (mark slow_option slow passed_tests item) = nodeid item
    ∧ own_markers (mark slow_option slow passed_tests item) =
        own_markers item ++ speed ++
        (if contains passed_tests (nodeid item) then [skip_passed] else []).
Proof.
  unfold mark.
  destruct slow_option, (item_in item slow); simpl;
    destruct (contains passed_tests (nodeid item)); simpl;
    first [ exists []; split_and!; [auto | done | done |];
            by rewrite ?app_nil_r
          | exists [skip_fast]; split_and!; [auto | done | done |];
            by rewrite <- ?app_assoc
          | exists [skip_slow]; split_and!; [auto | done | done |];
            by rewrite <- ?app_assoc ].
Qed.

End conftest_facts.

(** C10. [get_passed_tests] returns an empty list when [pytest_log.txt] is
    not a file, and otherwise the set of the first groups of the pattern on
    the lines of that file: a test identifier is in the set exactly when
    some line reads as the letters spyder and the rest of the identifier, a
    space, a word without a space and then SKIPPED, PASSED or XFAIL, the
    identifier being the longest part of that line that fits.
    [pytest_collection_modifyitems] then appends the marker that skips a
    passed test to every item whose node id is in that collection, and to
    no other item, after whatever marker the slow option gave the item;
    this is so with the option set and with it unset. *)
Theorem passed_tests_are_skipped (lt_times : nat → nat → nat → bool)
    (p : conftest.Platform) (cwd : gmap string string) :
  (cwd !! "pytest_log.txt" = None →
     conftest.get_passed_tests cwd = conftest.PyList [])
  ∧ (∀ text, cwd !! "pytest_log.txt" = Some text →
       ∃ tests,
         conftest.get_passed_tests cwd = conftest.PySet tests
         ∧ ∀ t, t ∈ tests ↔
                ∃ line, line ∈ conftest.readlines text
                        ∧ conftest.is_test_line line t)
  ∧ ∀ (slow_option : bool) (items : list conftest.Item),
      let marked :=
        conftest.pytest_collection_modifyitems lt_times p cwd slow_option
          items in
      length marked = length items
      ∧ ∀ i item, items !! i = Some item →
          ∃ item' speed,
            marked !! i = Some item'
            ∧ conftest.item_id item' = conftest.item_id item
            ∧ conftest.nodeid item' = conftest.nodeid item
            ∧ (speed = [] ∨ speed = [conftest.skip_fast]
               ∨ speed = [conftest.skip_slow])
            ∧ conftest.own_markers item' =
                conftest.own_markers item ++ speed ++
                (if conftest.contains (conftest.get_passed_tests cwd)
                      (conftest.nodeid item)
                 then [conftest.skip_passed] else []).
Proof.
  split_and!.
  - intros H. unfold conftest.get_passed_tests. by rewrite H.
  - intros text H. unfold conftest.get_passed_tests. rewrite H.
    eexists. split; [done|]. intros t.
    rewrite conftest_facts.passed_tests_fold. split.
    + intros [H0 | (line & Hl & Ht)]; [set_solver|].
      exists line. split; [done|]. by apply conftest_facts.test_re_match_spec.
    + intros (line & Hl & Ht). right. exists line. split; [done|].
      by apply conftest_facts.test_re_match_spec.
  - intros slow_option items marked. subst marked.
    unfold conftest.pytest_collection_modifyitems. split.
    + by rewrite length_fmap.
    + intros i item Hi.
      destruct (conftest_facts.mark_spec slow_option
                  (conftest.slow_items lt_times p items)
                  (conftest.get_passed_tests cwd) item)
        as (speed & Hspeed & Hid & Hnode & Hmarkers).
      eexists _, speed. split_and!; try done.
      by rewrite list_lookup_fmap, Hi.
Qed.

(** A log with a passed, a failed and a skipped test. *)
Example passed_tests_of_sample_log :
  conftest.get_passed_tests conftest.sample_cwd =
  conftest.PySet
    {[ "spyder/tests/test_a.py::test_one";
       "spyder/tests/test_a.py::test_three[a b]" ]}.
Proof. vm_compute. reflexivity. Qed.

Example sample_items_marked :
  conftest.own_markers <$>
    conftest.pytest_collection_modifyitems (λ _ _ _, false)
      conftest.sample_platform conftest.sample_cwd true
      conftest.sample_items
  = [ [conftest.skip_fast; conftest.skip_passed]; [conftest.skip_fast] ].
Proof. vm_compute. reflexivity. Qed.

(** * Further properties of the container *)

Ltac open_read_conf := unfold read_conf; cbn [conf secure_conf].

Section kernel_started_more.

Variables Password KeyFile : string.
Variable absent : string → bool → Result pyval.

Local Abbreviation on_kernel_started :=
  (on_kernel_started Password KeyFile absent).
Local Abbreviation read_conf := (read_conf absent).
Local Abbreviation spec_credentials :=
  (spec_credentials Password KeyFile absent).

(** X1. For the Password method the call reads, after the four address
    options, the secret password and nothing else: no key file and no
    passphrase.  The job is submitted with no key and with that secret as
    its password. *)
Theorem password_method_resolution (ipyclient : nat) (cl : IPythonClient)
    (kernel_info : gmap string json) (kid doc : json)
    (auth_method address username port password : pyval) (w : World) :
  clients w !! ipyclient = Some cl →
  kernel_info !! "id" = Some kid →
  kernel_info !! "connection_info" = Some doc →
  read_conf w (server_id cl +:+ "/auth_method") false = Ok auth_method →
  eq_str auth_method Password = true →
  read_conf w (server_id cl +:+ "/" +:+ py_str auth_method +:+ "/address")
    false = Ok address →
  read_conf w (server_id cl +:+ "/" +:+ py_str auth_method +:+ "/username")
    false = Ok username →
  read_conf w (server_id cl +:+ "/" +:+ py_str auth_method +:+ "/port")
    false = Ok port →
  read_conf w (server_id cl +:+ "/password") true = Ok password →
  let m := on_kernel_started ipyclient kernel_info in
  outcome m w = Ok tt
  ∧ List.filter is_get_conf (calls_of m w) =
      address_calls (server_id cl) auth_method
      ++ [get_conf_call (server_id cl +:+ "/password") true]
  ∧ ∃ worker,
      workers (exec m w) = workers w ++ [worker]
      ∧ tunnel_sshkey (worker_args worker) = PyNone
      ∧ tunnel_password (worker_args worker) = password
      ∧ worker_sshkey worker = Some PyNone
      ∧ worker_password worker = Some password.
Proof.
  intros Hcl Hid Hdoc Ham HP Ha Hu Hp Hpw m.
  pose proof (started_ok Password KeyFile absent _ _ _ _ _ _ _ _ _ _ _ _ _
                Hcl Hid Hdoc Ham Ha Hu Hp
                (credentials_password Password KeyFile absent _ _ _ _ HP Hpw))
    as Hrun.
  fold m in Hrun.
  unfold outcome, calls_of, exec. rewrite Hrun. cbn [fst snd].
  rewrite calls_of_submitted. split_and!; [done | done |].
  eexists. by split_and!.
Qed.

(** X2. Kernel information without an id stops the call at once with
    [KeyError], before anything is touched: the world is left exactly as
    it was. *)
Theorem missing_kernel_id_changes_nothing (ipyclient : nat)
    (cl : IPythonClient) (kernel_info : gmap string json) (w : World) :
  clients w !! ipyclient = Some cl →
  kernel_info !! "id" = None →
  on_kernel_started ipyclient kernel_info w = (Raise (KeyError "id"), w).
Proof.
  intros Hcl Hid. destruct w as [cf sc fs n cls wks pl tr].
  py_eval_in Hcl. py_eval. rewrite Hcl. py_eval. by rewrite Hid.
Qed.

(** X3. Kernel information without a connection descriptor is found out
    only after the connection file was opened for writing: the call stops
    with [KeyError], an empty connection file stays behind, and no worker
    is created; the client keeps the kernel id it was given. *)
Theorem missing_connection_info_leaves_empty_file (ipyclient : nat)
    (cl : IPythonClient) (kernel_info : gmap string json) (kid : json)
    (auth_method address username port sshkey password : pyval)
    (reads : list call) (w : World) :
  clients w !! ipyclient = Some cl →
  kernel_info !! "id" = Some kid →
  kernel_info !! "connection_info" = None →
  read_conf w (server_id cl +:+ "/auth_method") false = Ok auth_method →
  read_conf w (server_id cl +:+ "/" +:+ py_str auth_method +:+ "/address")
    false = Ok address →
  read_conf w (server_id cl +:+ "/" +:+ py_str auth_method +:+ "/username")
    false = Ok username →
  read_conf w (server_id cl +:+ "/" +:+ py_str auth_method +:+ "/port")
    false = Ok port →
  spec_credentials w (server_id cl) auth_method sshkey password reads
  ∨ (eq_str auth_method Password = false
     ∧ eq_str auth_method KeyFile = false) →
  let m := on_kernel_started ipyclient kernel_info in
  let path := "kernel-" +:+ pretty (connection_files_made w) +:+ ".json" in
  outcome m w = Raise (KeyError "connection_info")
  ∧ files (exec m w) = <[path := EmptyFile]> (files w)
  ∧ workers (exec m w) = workers w
  ∧ pool (exec m w) = pool w
  ∧ count is_create_python_worker (calls_of m w) = 0
  ∧ kernel_id <$> clients (exec m w) !! ipyclient = Some (Some kid).
Proof.
  intros Hcl Hid Hdoc Ham Ha Hu Hp Hcred m path. subst m path.
  destruct w as [cf sc fs n cls wks pl tr].
  py_eval_in Hcl; py_eval_in Ham; py_eval_in Ha; py_eval_in Hu;
    py_eval_in Hp.
  py_eval. rewrite Hcl. py_eval. rewrite Hid. py_eval. rewrite Ham.
  py_eval. rewrite Ha. py_eval. rewrite Hu. py_eval. rewrite Hp.
  destruct Hcred as [[pw HP Hpw | kf pp HP HK Hkf Hpp] | [HP HK]].
  - py_eval_in Hpw. py_eval. rewrite HP. py_eval. rewrite Hpw. py_eval.
    rewrite Hdoc. py_eval. rewrite <- !app_assoc, drop_app_length.
    split_and!; try done. by rewrite !lookup_alter_eq, Hcl.
  - py_eval_in Hkf. py_eval_in Hpp. py_eval. rewrite HP, HK. py_eval.
    rewrite Hkf. py_eval. rewrite Hpp. py_eval.
    destruct (truthy pp); py_eval; rewrite Hdoc; py_eval;
      rewrite <- !app_assoc, drop_app_length;
      (split_and!; try done; by rewrite !lookup_alter_eq, Hcl).
  - py_eval. rewrite HP, HK. py_eval. rewrite Hdoc. py_eval.
    rewrite <- !app_assoc, drop_app_length.
    split_and!; try done. by rewrite !lookup_alter_eq, Hcl.
Qed.

(** Every way a call can end, with what it has touched by then. *)
Lemma started_shape (ipyclient : nat) (kernel_info : gmap string json)
    (w w' : World) (r : Result unit) :
  on_kernel_started ipyclient kernel_info w = (r, w') →
  conf w' = conf w
  ∧ secure_conf w' = secure_conf w
  ∧ (∀ other, other ≠ ipyclient → clients w' !! other = clients w !! other)
  ∧ (∃ t, trace w' = trace w ++ t
          ∧ count is_set_conf t = 0
          ∧ count is_completion_call t = 0
          ∧ count is_create_python_worker t
              = (if r is Ok _ then 1 else 0)
          ∧ count is_start t = (if r is Ok _ then 1 else 0))
  ∧ match r with
    | Ok _ =>
        (∃ worker, workers w' = workers w ++ [worker])
        ∧ pool w' = WorkerManager.start (length (workers w)) (pool w)
    | Raise e =>
        workers w' = workers w
        ∧ pool w' = pool w
        ∧ (e = AttributeError "server_id"
           ∨ e = KeyError "id"
           ∨ e = KeyError "connection_info"
           ∨ e = UnboundLocalError "sshkey"
           ∨ ∃ option secure, read_conf w option secure = Raise e)
    end.
Proof.
  intros Hrun. destruct w as [cf sc fs n cls wks pl tr].
  run_cases_in Hrun; injection Hrun as <- <-.
  all: cbn [conf secure_conf clients workers pool trace].
  all: split; [reflexivity|].
  all: split; [reflexivity|].
  all: split;
    [intros other Hother; by rewrite ?lookup_alter_ne by done|].
  all: split;
    [ rewrite <- ?app_assoc;
      first [ exists []; split; [symmetry; apply app_nil_r|]
            | eexists; split; [reflexivity|] ];
      vm_compute; done |].
  all: try (split; [reflexivity|]; split; [reflexivity|]).
  all: try (split; [|reflexivity]; rewrite !alter_app_last; by eexists).
  all: open_read_conf; eauto 10.
Qed.

(** X4. A call submits a job or leaves the worker manager alone: when it
    returns it has created exactly one worker and started exactly that one;
    when it raises it has created none and started none, and the list of
    workers and the pool are as before.  No worker is ever created without
    being started. *)
Theorem submission_is_all_or_nothing (ipyclient : nat)
    (kernel_info : gmap string json) (w : World) :
  let m := on_kernel_started ipyclient kernel_info in
  (outcome m w = Ok tt →
     count is_create_python_worker (calls_of m w) = 1
     ∧ count is_start (calls_of m w) = 1
     ∧ (∃ worker, workers (exec m w) = workers w ++ [worker])
     ∧ pool (exec m w) = WorkerManager.start (length (workers w)) (pool w))
  ∧ (∀ e, outcome m w = Raise e →
       count is_create_python_worker (calls_of m w) = 0
       ∧ count is_start (calls_of m w) = 0
       ∧ workers (exec m w) = workers w
       ∧ pool (exec m w) = pool w).
Proof.
  intros m. destruct (m w) as [r w'] eqn:Hrun.
  destruct (started_shape _ _ _ _ _ Hrun)
    as (_ & _ & _ & (t & Ht & _ & _ & Hc & Hs) & Hr).
  unfold outcome, calls_of, exec. rewrite Hrun. cbn [fst snd].
  rewrite Ht, drop_app_length. split.
  - intros ->. by destruct Hr.
  - intros e ->. by destruct Hr as (? & ? & _).
Qed.

(** X5. Whatever its outcome, a call never writes the configuration store:
    options and secrets are as before and [set_conf] is not called.  It
    calls none of [show_kernel_error], [from_connection_file] and
    [connect_kernel], changes no other client, and keeps every worker that
    existed. *)
Theorem kernel_started_frame (ipyclient : nat)
    (kernel_info : gmap string json) (w : World) :
  let m := on_kernel_started ipyclient kernel_info in
  conf (exec m w) = conf w
  ∧ secure_conf (exec m w) = secure_conf w
  ∧ count is_set_conf (calls_of m w) = 0
  ∧ count is_completion_call (calls_of m w) = 0
  ∧ (∀ other, other ≠ ipyclient →
       clients (exec m w) !! other = clients w !! other)
  ∧ workers w `prefix_of` workers (exec m w).
Proof.
  intros m. destruct (m w) as [r w'] eqn:Hrun.
  destruct (started_shape _ _ _ _ _ Hrun)
    as (Hconf & Hsec & Hcl & (t & Ht & Hset & Hcompl & _) & Hr).
  unfold calls_of, exec. rewrite Hrun. cbn [fst snd].
  rewrite Ht, drop_app_length. split_and!; try done.
  destruct r as [[]|e].
  - destruct Hr as [[worker ->] _]. by apply prefix_app_r.
  - by destruct Hr as (-> & _).
Qed.


End kernel_started_more.

(** ** More on strings *)

Module strings_more.

Lemma length_append (a b : string) :
  String.length (a +:+ b) = String.length a + String.length b.
Proof.
  induction a as [|c a IH]; [done|].
  rewrite conftest_facts.append_cons. simpl. by rewrite IH.
Qed.

Lemma append_assoc (a b c : string) : (a +:+ b) +:+ c = a +:+ b +:+ c.
Proof.
  induction a as [|x a IH]; [done|].
  rewrite !conftest_facts.append_cons. by rewrite IH.
Qed.

(** Two ways to cut one string: the shorter first part is a prefix of the
    longer one. *)
Lemma append_split (a b c d : string) :
  a +:+ b = c +:+ d →
  String.length c ≤ String.length a →
  ∃ e, a = c +:+ e ∧ d = e +:+ b.
Proof.
  revert a. induction c as [|x c IH]; intros a H Hlen.
  - exists a. by rewrite !conftest_facts.append_nil in *.
  - destruct a as [|y a]; [simpl in Hlen; lia|].
    rewrite !conftest_facts.append_cons in H. injection H as -> H.
    simpl in Hlen. destruct (IH a H) as (e & -> & ->); [lia|].
    by exists e.
Qed.

Lemma append_inj_l (x y s : string) : x +:+ s = y +:+ s → x = y.
Proof.
  intros H. apply (conftest_facts.append_same_length x y s s H).
  apply (f_equal String.length) in H. rewrite !length_append in H. lia.
Qed.

Lemma status_key_inj (a b : string) :
  a +:+ "/status" = b +:+ "/status" → a = b.
Proof. apply append_inj_l. Qed.

Lemma message_key_inj (a b : string) :
  a +:+ "/status_message" = b +:+ "/status_message" → a = b.
Proof. apply append_inj_l. Qed.

(** The status option of one connection is the message option of none. *)
Lemma status_key_not_message (a b : string) :
  a +:+ "/status" ≠ b +:+ "/status_message".
Proof.
  intros H.
  destruct (append_split a "/status" b "/status_message" H)
    as (e & _ & He).
  { apply (f_equal String.length) in H. rewrite !length_append in H.
    simpl in H. lia. }
  assert (String.length e = 8) as Hlen.
  { apply (f_equal String.length) in He. rewrite length_append in He.
    simpl in He. lia. }
  do 8 (destruct e as [|? e]; [discriminate Hlen|]).
  destruct e; [|discriminate Hlen].
  rewrite !conftest_facts.append_cons, conftest_facts.append_nil in He.
  discriminate He.
Qed.

End strings_more.

(** ** More on the status sink *)

Lemma status_changed_conf (info : ConnectionInfo) (w : World) :
  conf (exec (_on_connection_status_changed info) w) =
  <[info_id info +:+ "/status_message" := info_message info]>
    (<[info_id info +:+ "/status" := info_status info]> (conf w)).
Proof. unfold exec. by rewrite status_changed_run. Qed.

(** X7. Connections do not share status: handling an update for one
    connection id leaves the status and the message stored for every other
    id as they were, and updates for two different ids give the same store
    in either order. *)
Theorem status_updates_are_isolated (a b : ConnectionInfo) (w : World) :
  info_id a ≠ info_id b →
  let after_a := exec (_on_connection_status_changed a) w in
  conf after_a !! (info_id b +:+ "/status") =
    conf w !! (info_id b +:+ "/status")
  ∧ conf after_a !! (info_id b +:+ "/status_message") =
      conf w !! (info_id b +:+ "/status_message")
  ∧ conf (exec (_on_connection_status_changed b) after_a) =
      conf (exec (_on_connection_status_changed a)
              (exec (_on_connection_status_changed b) w)).
Proof.
  intros Hne after_a. subst after_a. rewrite !status_changed_conf.
  assert (info_id a +:+ "/status" ≠ info_id b +:+ "/status") as H1.
  { by intros ?%strings_more.status_key_inj. }
  assert (info_id a +:+ "/status_message" ≠ info_id b +:+ "/status_message")
    as H2.
  { by intros ?%strings_more.message_key_inj. }
  pose proof (strings_more.status_key_not_message (info_id a) (info_id b))
    as H3.
  pose proof (strings_more.status_key_not_message (info_id b) (info_id a))
    as H4.
  split_and!.
  - by rewrite !lookup_insert_ne.
  - by rewrite !lookup_insert_ne.
  - apply map_eq. intros k. rewrite !lookup_insert.
    repeat case_decide; congruence.
Qed.

(** X8. The last update of a connection wins: after two updates for the
    same id the store is what the second alone would have left. *)
Theorem last_status_update_wins (first second : ConnectionInfo) (w : World) :
  info_id first = info_id second →
  conf (exec (_on_connection_status_changed second)
          (exec (_on_connection_status_changed first) w)) =
  conf (exec (_on_connection_status_changed second) w).
Proof.
  intros Hid. rewrite !status_changed_conf, Hid.
  apply map_eq. intros k. rewrite !lookup_insert.
  repeat case_decide; congruence.
Qed.

(** * Further properties of the pytest configuration *)

Module conftest_more.
Import conftest.

Lemma has_char_append (c : ascii) (a b : string) :
  has_char c (a +:+ b) = has_char c a || has_char c b.
Proof.
  induction a as [|x a IH]; [done|].
  rewrite conftest_facts.append_cons. simpl. rewrite IH.
  by rewrite orb_assoc.
Qed.

Lemma is_substring_spec (needle s : string) :
  is_substring needle s = true ↔ ∃ a b, s = a +:+ needle +:+ b.
Proof.
  split.
  - induction s as [|c s IH]; simpl.
    + rewrite orb_false_r.
      intros [r Hr]%conftest_facts.starts_with_spec. by exists "", r.
    + intros [[r Hr]%conftest_facts.starts_with_spec | H]%orb_true_iff.
      * by exists "", r.
      * destruct (IH H) as (a & b & ->). by exists (String c a), b.
  - intros (a & b & ->). induction a as [|c a IH].
    + rewrite conftest_facts.append_nil.
      assert (starts_with needle (needle +:+ b) = true) as H.
      { apply conftest_facts.starts_with_spec. by exists b. }
      destruct (needle +:+ b); simpl; by rewrite H.
    + rewrite conftest_facts.append_cons. simpl. rewrite IH.
      by rewrite orb_true_r.
Qed.

Lemma outcome_has_no_space (k : string) :
  k ∈ outcomes → has_char space k = false.
Proof.
  unfold outcomes. rewrite !elem_of_cons, elem_of_nil.
  intros [-> | [-> | [-> | []]]]; reflexivity.
Qed.

(** A line the pattern matches holds one of the three outcomes. *)
Lemma parses_has_outcome (line name : string) :
  parses line name → ∃ k, k ∈ outcomes ∧ is_substring k line = true.
Proof.
  intros (_ & word & k & rest & _ & Hk & ->). exists k. split; [done|].
  apply is_substring_spec. exists ("spyder" +:+ name +:+ " " +:+ word), rest.
  by rewrite !strings_more.append_assoc.
Qed.

(** *** Lines and text *)

Lemma rev_app_append (a b : string) :
  String.rev_app a b = String.rev_app a "" +:+ b.
Proof.
  revert b. induction a as [|c a IH]; intros b; simpl; [done|].
  rewrite (IH (String c b)), (IH (String c "")).
  by rewrite strings_more.append_assoc.
Qed.

Lemma rev_cons (c : ascii) (a : string) :
  String.rev (String c a) = String.rev a +:+ String c "".
Proof. unfold String.rev. simpl. apply rev_app_append. Qed.

(** Joining the lines gives the text back. *)
Lemma readlines_from_concat (line text : string) :
  foldr String.append "" (readlines_from line text) =
  String.rev line +:+ text.
Proof.
  revert line. induction text as [|c text IH]; intros line; simpl.
  - by destruct line.
  - destruct (Ascii.eqb c newline).
    + simpl. rewrite IH. rewrite rev_cons.
      by rewrite strings_more.append_assoc.
    + rewrite IH, rev_cons. by rewrite strings_more.append_assoc.
Qed.

Lemma readlines_concat (text : string) :
  foldr String.append "" (readlines text) = text.
Proof. apply readlines_from_concat. Qed.

Lemma line_in_text (lines : list string) (line : string) :
  line ∈ lines →
  ∃ a b, foldr String.append "" lines = a +:+ line +:+ b.
Proof.
  induction lines as [|l lines IH]; [by intros ?%elem_of_nil|].
  intros [-> | H]%elem_of_cons; simpl.
  - by exists "", (foldr String.append "" lines).
  - destruct (IH H) as (a & b & ->). exists (l +:+ a), b.
    by rewrite strings_more.append_assoc.
Qed.

(** What a line holds, the text holds. *)
Lemma substring_of_line (needle line text : string) :
  line ∈ readlines text →
  is_substring needle line = true → is_substring needle text = true.
Proof.
  intros Hl (a & b & ->)%is_substring_spec.
  destruct (line_in_text _ _ Hl) as (a' & b' & Ht).
  rewrite readlines_concat in Ht. apply is_substring_spec.
  exists (a' +:+ a), (b +:+ b'). rewrite Ht.
  by rewrite !strings_more.append_assoc.
Qed.

End conftest_more.

(** X9. A line that holds none of the words SKIPPED, PASSED and XFAIL is
    never taken for a passed test, and a log without any of them gives the
    empty set: the lines of failed tests and of errors are not recorded
    unless one of the three words occurs on them. *)
Theorem lines_without_outcome_are_ignored :
  (∀ line,
     (∀ k, k ∈ conftest.outcomes → conftest.is_substring k line = false) →
     conftest.test_re_match line = None)
  ∧ ∀ (cwd : gmap string string) (text : string),
      cwd !! "pytest_log.txt" = Some text →
      (∀ k, k ∈ conftest.outcomes → conftest.is_substring k text = false) →
      conftest.get_passed_tests cwd = conftest.PySet ∅.
Proof.
  assert (∀ line,
    (∀ k, k ∈ conftest.outcomes → conftest.is_substring k line = false) →
    conftest.test_re_match line = None) as Hline.
  { intros line Hno.
    destruct (conftest.test_re_match line) as [t|] eqn:Ht; [|done].
    apply conftest_facts.test_re_match_spec in Ht as (name & _ & Hp & _).
    destruct (conftest_more.parses_has_outcome _ _ Hp) as (k & Hk & Hsub).
    rewrite (Hno k Hk) in Hsub. discriminate. }
  split; [exact Hline|].
  intros cwd text Hcwd Hno. unfold conftest.get_passed_tests. rewrite Hcwd.
  f_equal. apply set_eq. intros t.
  rewrite conftest_facts.passed_tests_fold. split.
  - intros [H | (line & Hl & Ht)]; [done|].
    rewrite Hline in Ht; [done|].
    intros k Hk. destruct (conftest.is_substring k line) eqn:Hsub; [|done].
    rewrite <- (Hno k Hk). symmetry.
    by apply (conftest_more.substring_of_line k line text).
  - by intros ?%elem_of_empty.
Qed.

(** On a line made of a node id, a space, an outcome and a rest without
    outcome, the starred dot cannot take more than the node id. *)
Lemma nodeid_of_verbose_line (name outcome rest : string) :
  conftest.has_char conftest.newline name = false →
  outcome ∈ conftest.outcomes →
  (∀ k, k ∈ conftest.outcomes → conftest.is_substring k rest = false) →
  conftest.test_re_match ("spyder" +:+ name +:+ " " +:+ outcome +:+ rest) =
  Some ("spyder" +:+ name).
Proof.
  intros Hname Hout Hrest. apply conftest_facts.test_re_match_spec.
  exists name. split_and!; [done| |].
  - split; [done|]. by exists "", outcome, rest.
  - intros name' (Hname' & word & k & rest' & Hword & Hk & Heq).
    destruct (decide (String.length name' ≤ String.length name)) as [|Hlt];
      [done|].
    exfalso. apply (append_inj_r "spyder") in Heq. symmetry in Heq.
    destruct (strings_more.append_split name'
                (" " +:+ word +:+ k +:+ rest') name
                (" " +:+ outcome +:+ rest)) as (e & -> & He);
      [done | lia |].
    rewrite strings_more.length_append in Hlt.
    destruct e as [|c e]; [simpl in Hlt; lia|].
    rewrite !conftest_facts.append_cons, !conftest_facts.append_nil in He.
    injection He as <- He.
    destruct (decide (String.length outcome ≤ String.length e)) as [Hle|Hgt].
    + destruct (strings_more.append_split e
                  (String " " (word +:+ k +:+ rest')) outcome rest)
        as (e' & -> & Hr); [done | done |].
      assert (conftest.is_substring k rest = true) as Hsub.
      { apply conftest_more.is_substring_spec.
        exists (e' +:+ " " +:+ word), rest'. rewrite Hr.
        by rewrite !strings_more.append_assoc,
             !conftest_facts.append_cons, !conftest_facts.append_nil. }
      by rewrite (Hrest k Hk) in Hsub.
    + destruct (strings_more.append_split outcome rest e
                  (String " " (word +:+ k +:+ rest')))
        as (e' & Ho & Hr); [done | lia |].
      pose proof (conftest_more.outcome_has_no_space _ Hout) as Hsp.
      rewrite Ho, conftest_more.has_char_append in Hsp.
      apply orb_false_iff in Hsp as [_ Hsp].
      destruct e' as [|c e'].
      * rewrite Ho, strings_more.length_append in Hgt. simpl in Hgt. lia.
      * rewrite conftest_facts.append_cons in Hr. injection Hr as <- _.
        discriminate Hsp.
Qed.

(** X10. The line pytest prints for a test, its node id, a space, the
    outcome and the rest of the line, is recorded under exactly the node
    id, spaces in the id included, when the id starts with the letters
    spyder and has no newline, the outcome is SKIPPED, PASSED or XFAIL, and
    none of these words occurs again after it. *)
Theorem verbose_line_records_nodeid (name outcome rest : string) :
  conftest.has_char conftest.newline name = false →
  outcome ∈ conftest.outcomes →
  (∀ k, k ∈ conftest.outcomes → conftest.is_substring k rest = false) →
  conftest.test_re_match ("spyder" +:+ name +:+ " " +:+ outcome +:+ rest) =
  Some ("spyder" +:+ name).
Proof. apply nodeid_of_verbose_line. Qed.

Module modifyitems_more.
Import conftest.

Section slot.

Variable lt_times : nat → nat → nat → bool.

Lemma item_in_spec (item : Item) (l : list Item) :
  item_in item l = true ↔ ∃ x, x ∈ l ∧ item_id x = item_id item.
Proof.
  unfold item_in. rewrite existsb_exists. split.
  - intros (x & Hx & Hid). exists x. split; [by apply list_elem_of_In|].
    by apply Nat.eqb_eq.
  - intros (x & Hx & Hid). exists x. split; [by apply list_elem_of_In|].
    by apply Nat.eqb_eq.
Qed.

Lemma slow_share_subset (i n tenths : nat) (l : list Item) (x : Item) :
  x ∈ slow_share lt_times i n tenths l → x ∈ l.
Proof.
  revert i. induction l as [|item l IH]; intros i; simpl; [done|].
  destruct (lt_times i n tenths).
  - intros [-> | H]%elem_of_cons; [left | right; by eapply IH].
  - intros H. right. by eapply IH.
Qed.

(** A slow item is a collected main window or IPython console test. *)
Lemma slow_items_spec (p : Platform) (items : list Item) (x : Item) :
  x ∈ slow_items lt_times p items →
  environ_get p "CI" = true
  ∧ environ_get p "SPYDER_TEST_REMOTE_CLIENT" = false
  ∧ x ∈ items
  ∧ (is_substring "test_mainwindow" (nodeid x) = true
     ∨ is_substring "test_ipythonconsole" (nodeid x) = true).
Proof.
  unfold slow_items.
  destruct (environ_get p "CI"); simpl; [|by intros ?%elem_of_nil].
  destruct (environ_get p "SPYDER_TEST_REMOTE_CLIENT"); simpl;
    [by intros ?%elem_of_nil|].
  intros [H | H]%elem_of_app.
  - apply list_elem_of_In, filter_In in H as [H1 H2].
    split_and!; try done; [by apply list_elem_of_In | by left].
  - apply slow_share_subset in H.
    apply list_elem_of_In, filter_In in H as [H1 H2].
    split_and!; try done; [by apply list_elem_of_In | by right].
Qed.

Lemma main_window_is_slow (p : Platform) (items : list Item) (x : Item) :
  environ_get p "CI" = true →
  environ_get p "SPYDER_TEST_REMOTE_CLIENT" = false →
  x ∈ items →
  is_substring "test_mainwindow" (nodeid x) = true →
  x ∈ slow_items lt_times p items.
Proof.
  intros HCI Hremote Hx Hsub. unfold slow_items. rewrite HCI, Hremote. simpl.
  apply elem_of_app. left. apply list_elem_of_In, filter_In.
  split; [by apply list_elem_of_In | done].
Qed.

(** The markers of an item after the last loop. *)
Lemma marked_markers (p : Platform) (cwd : gmap string string)
    (slow_option : bool) (items : list Item) (i : nat) (item : Item) :
  items !! i = Some item →
  own_markers <$>
    pytest_collection_modifyitems lt_times p cwd slow_option items !! i =
  Some (own_markers item
        ++ (if slow_option
            then if item_in item (slow_items lt_times p items) then []
                 else [skip_fast]
            else if item_in item (slow_items lt_times p items)
                 then [skip_slow] else [])
        ++ (if contains (get_passed_tests cwd) (nodeid item)
            then [skip_passed] else [])).
Proof.
  intros Hi. unfold pytest_collection_modifyitems.
  rewrite list_lookup_fmap, Hi. simpl. f_equal. unfold mark.
  destruct slow_option, (item_in item (slow_items lt_times p items)); simpl;
    destruct (contains (get_passed_tests cwd) (nodeid item)); simpl;
    by rewrite <- ?app_assoc, ?app_nil_r.
Qed.

Lemma distinct_ids (items : list Item) (x y : Item) :
  NoDup (item_id <$> items) →
  x ∈ items → y ∈ items → item_id x = item_id y → x = y.
Proof.
  induction items as [|z items IH]; [by intros _ ?%elem_of_nil|].
  rewrite fmap_cons, NoDup_cons.
  intros [Hz Hnd] [-> | Hx]%elem_of_cons [-> | Hy]%elem_of_cons Hid.
  - done.
  - exfalso. apply Hz. rewrite Hid. by apply list_elem_of_fmap_2.
  - exfalso. apply Hz. rewrite <- Hid. by apply list_elem_of_fmap_2.
  - by apply IH.
Qed.

End slot.

End modifyitems_more.

(** X11. The slow option splits the collection in two: every item gets the
    slow-test marker in runs without the option or the fast-test marker in
    runs with it, never both and never neither, so each test runs in
    exactly one of the two kinds of run; the marker for passed tests is the
    same in both. *)
Theorem each_item_runs_in_one_slot (lt_times : nat → nat → nat → bool)
    (p : conftest.Platform) (cwd : gmap string string)
    (items : list conftest.Item) (i : nat) (item : conftest.Item) :
  items !! i = Some item →
  let without :=
    conftest.pytest_collection_modifyitems lt_times p cwd false items in
  let with_option :=
    conftest.pytest_collection_modifyitems lt_times p cwd true items in
  let passed :=
    if conftest.contains (conftest.get_passed_tests cwd)
         (conftest.nodeid item)
    then [conftest.skip_passed] else [] in
  (conftest.own_markers <$> without !! i =
     Some (conftest.own_markers item ++ [conftest.skip_slow] ++ passed)
   ∧ conftest.own_markers <$> with_option !! i =
       Some (conftest.own_markers item ++ passed))
  ∨ (conftest.own_markers <$> without !! i =
       Some (conftest.own_markers item ++ passed)
     ∧ conftest.own_markers <$> with_option !! i =
         Some (conftest.own_markers item ++ [conftest.skip_fast] ++ passed)).
Proof.
  intros Hi without with_option passed. subst without with_option passed.
  rewrite !(modifyitems_more.marked_markers _ _ _ _ _ _ _ Hi).
  destruct (conftest.item_in item (conftest.slow_items lt_times p items));
    [left | right]; done.
Qed.

(** X12. Outside the continuous integration runs, that is with CI unset or
    empty or with SPYDER_TEST_REMOTE_CLIENT set, no test counts as slow:
    without the slow option no item gets a speed marker, and with it every
    item is skipped as a fast test.  A run without the option and without
    a log of passed tests leaves the collection as it is. *)
Theorem no_slow_tests_outside_ci (lt_times : nat → nat → nat → bool)
    (p : conftest.Platform) (cwd : gmap string string)
    (items : list conftest.Item) :
  conftest.environ_get p "CI" = false
  ∨ conftest.environ_get p "SPYDER_TEST_REMOTE_CLIENT" = true →
  (∀ i item, items !! i = Some item →
     let passed :=
       if conftest.contains (conftest.get_passed_tests cwd)
            (conftest.nodeid item)
       then [conftest.skip_passed] else [] in
     conftest.own_markers <$>
       conftest.pytest_collection_modifyitems lt_times p cwd false items !! i
       = Some (conftest.own_markers item ++ passed)
     ∧ conftest.own_markers <$>
         conftest.pytest_collection_modifyitems lt_times p cwd true items !! i
       = Some (conftest.own_markers item ++ [conftest.skip_fast] ++ passed))
  ∧ (cwd !! "pytest_log.txt" = None →
     conftest.pytest_collection_modifyitems lt_times p cwd false items
       = items).
Proof.
  intros Hci.
  assert (conftest.slow_items lt_times p items = []) as Hslow.
  { unfold conftest.slow_items.
    destruct Hci as [-> | ->]; [done|]. by rewrite andb_false_r. }
  split.
  - intros i item Hi passed. subst passed.
    rewrite !(modifyitems_more.marked_markers _ _ _ _ _ _ _ Hi), Hslow.
    done.
  - intros Hlog. unfold conftest.pytest_collection_modifyitems.
    rewrite Hslow. unfold conftest.get_passed_tests. rewrite Hlog.
    rewrite <- (list_fmap_id items) at 2. apply list_fmap_ext.
    intros i [id node markers] _. reflexivity.
Qed.

(** X13. On continuous integration every main window test is slow: it is
    skipped in runs without the slow option and gets no speed marker in
    runs with it, whatever share of the IPython console tests is slow. *)
Theorem main_window_tests_are_slow (lt_times : nat → nat → nat → bool)
    (p : conftest.Platform) (cwd : gmap string string)
    (items : list conftest.Item) (i : nat) (item : conftest.Item) :
  conftest.environ_get p "CI" = true →
  conftest.environ_get p "SPYDER_TEST_REMOTE_CLIENT" = false →
  items !! i = Some item →
  conftest.is_substring "test_mainwindow" (conftest.nodeid item) = true →
  let passed :=
    if conftest.contains (conftest.get_passed_tests cwd)
         (conftest.nodeid item)
    then [conftest.skip_passed] else [] in
  conftest.own_markers <$>
    conftest.pytest_collection_modifyitems lt_times p cwd false items !! i
    = Some (conftest.own_markers item ++ [conftest.skip_slow] ++ passed)
  ∧ conftest.own_markers <$>
      conftest.pytest_collection_modifyitems lt_times p cwd true items !! i
    = Some (conftest.own_markers item ++ passed).
Proof.
  intros HCI Hremote Hi Hsub passed. subst passed.
  rewrite !(modifyitems_more.marked_markers _ _ _ _ _ _ _ Hi).
  assert (conftest.item_in item (conftest.slow_items lt_times p items) = true)
    as ->; [|done].
  apply modifyitems_more.item_in_spec. exists item. split; [|done].
  apply modifyitems_more.main_window_is_slow; try done.
  by eapply list_elem_of_lookup_2.
Qed.

(** X14. A test that is neither a main window test nor an IPython console
    test is fast on every platform, provided the collected items are
    distinct objects: it is skipped in runs with the slow option and gets
    no speed marker in runs without it. *)
Theorem other_tests_are_fast (lt_times : nat → nat → nat → bool)
    (p : conftest.Platform) (cwd : gmap string string)
    (items : list conftest.Item) (i : nat) (item : conftest.Item) :
  NoDup (conftest.item_id <$> items) →
  items !! i = Some item →
  conftest.is_substring "test_mainwindow" (conftest.nodeid item) = false →
  conftest.is_substring "test_ipythonconsole" (conftest.nodeid item)
    = false →
  let passed :=
    if conftest.contains (conftest.get_passed_tests cwd)
         (conftest.nodeid item)
    then [conftest.skip_passed] else [] in
  conftest.own_markers <$>
    conftest.pytest_collection_modifyitems lt_times p cwd false items !! i
    = Some (conftest.own_markers item ++ passed)
  ∧ conftest.own_markers <$>
      conftest.pytest_collection_modifyitems lt_times p cwd true items !! i
    = Some (conftest.own_markers item ++ [conftest.skip_fast] ++ passed).
Proof.
  intros Hnd Hi Hmain Hipy passed. subst passed.
  rewrite !(modifyitems_more.marked_markers _ _ _ _ _ _ _ Hi).
  assert (conftest.item_in item (conftest.slow_items lt_times p items)
          = false) as ->; [|done].
  apply not_true_is_false.
  intros (x & Hx & Hid)%modifyitems_more.item_in_spec.
  apply modifyitems_more.slow_items_spec in Hx as (_ & _ & Hx & Hsub).
  assert (x = item) as ->.
  { apply (modifyitems_more.distinct_ids items); try done.
    by eapply list_elem_of_lookup_2. }
  destruct Hsub; congruence.
Qed.

(** X17. A test whose line is in the log of an earlier run, with the
    outcome SKIPPED, PASSED or XFAIL, is skipped in the next run: when the
    log has the line made of the node id of a collected item, a space, the
    outcome and a rest without any of the three words, the item ends up
    with the marker for passed tests as its last marker, with or without
    the slow option. *)
Theorem logged_test_is_skipped (lt_times : nat → nat → nat → bool)
    (p : conftest.Platform) (cwd : gmap string string) (text : string)
    (slow_option : bool) (items : list conftest.Item) (i : nat)
    (item : conftest.Item) (name outcome rest : string) :
  cwd !! "pytest_log.txt" = Some text →
  items !! i = Some item →
  conftest.nodeid item = "spyder" +:+ name →
  conftest.has_char conftest.newline name = false →
  outcome ∈ conftest.outcomes →
  (∀ k, k ∈ conftest.outcomes → conftest.is_substring k rest = false) →
  ("spyder" +:+ name +:+ " " +:+ outcome +:+ rest)
    ∈ conftest.readlines text →
  ∃ marked,
    conftest.pytest_collection_modifyitems lt_times p cwd slow_option items
      !! i = Some marked
    ∧ last (conftest.own_markers marked) = Some conftest.skip_passed.
Proof.
  intros Hcwd Hi Hnode Hname Hout Hrest Hline.
  pose proof (modifyitems_more.marked_markers lt_times p cwd slow_option
                items i item Hi) as Hm.
  destruct (conftest.pytest_collection_modifyitems lt_times p cwd slow_option
              items !! i) as [marked|] eqn:Hmarked; [|discriminate Hm].
  exists marked. split; [done|]. simpl in Hm. injection Hm as ->.
  assert (conftest.contains (conftest.get_passed_tests cwd)
            (conftest.nodeid item) = true) as ->.
  { unfold conftest.get_passed_tests. rewrite Hcwd. simpl.
    apply bool_decide_eq_true, conftest_facts.passed_tests_fold. right.
    eexists. split; [exact Hline|]. rewrite Hnode.
    by apply nodeid_of_verbose_line. }
  by rewrite !app_assoc, last_snoc.
Qed.


(** * The submenu of remote consoles *)

Module submenu_facts.
Import submenu.

Section loop.

Variable absent : string → bool → Result pyval.

Lemma console_actions_cons (w : World) (config_id : string)
    (rest : list string) (auth_method name : pyval) :
  read_conf absent w (config_id +:+ "/auth_method") false = Ok auth_method →
  read_conf absent w
    (config_id +:+ "/" +:+ py_str auth_method +:+ "/name") false = Ok name →
  console_actions absent w (config_id :: rest) =
  ((console_actions absent w rest).1,
   console_calls config_id name ++ (console_actions absent w rest).2).
Proof. intros Ham Hname. simpl. by rewrite Ham, Hname. Qed.

Lemma console_actions_readable (w : World)
    (servers : list (string * pyval)) (rest : list string) :
  Forall (readable absent w) servers →
  console_actions absent w (servers.*1 ++ rest) =
  ((console_actions absent w rest).1,
   consoles servers ++ (console_actions absent w rest).2).
Proof.
  induction 1 as [|[config_id name] servers (am & Ham & Hname) _ IH].
  - change ([].*1 ++ rest) with rest. unfold consoles. simpl.
    by destruct (console_actions absent w rest).
  - rewrite fmap_cons, <- app_comm_cons.
    rewrite (console_actions_cons _ _ _ _ _ Ham Hname), IH.
    unfold consoles. rewrite fmap_cons. cbn [concat fst snd].
    by rewrite <- !app_assoc.
Qed.

Lemma console_actions_unreadable (w : World) (config_id : string)
    (rest : list string) (e : exn) :
  unreadable absent w config_id e →
  console_actions absent w (config_id :: rest) = (Raise e, []).
Proof.
  intros [H | (am & Ham & H)]; simpl.
  - by rewrite H.
  - by rewrite Ham, H.
Qed.

End loop.

End submenu_facts.

(** X15. When the authentication method and the name of every configured
    server can be read, the submenu is rebuilt from nothing: it is cleared,
    the entry that manages connections is added, then for every server, in
    order, one action is created under the server id, with the server name
    in its text and a trigger that asks for a console on that very server,
    and added to the section of consoles; the menu is rendered at the end
    when asked, and only then.  With no server the menu holds the one
    entry. *)
Theorem submenu_lists_every_server (absent : string → bool → Result pyval)
    (render_flag : bool) (servers : list (string * pyval)) (w : World) :
  Forall (submenu.readable absent w) servers →
  submenu.setup_remote_consoles_submenu absent render_flag (servers.*1) w =
  (Ok tt,
   [submenu.clear_actions;
    submenu.add_item_to_menu submenu.ManageConnections
      submenu.ManagerSection]
   ++ submenu.consoles servers
   ++ (if render_flag then [submenu.render] else [])).
Proof.
  intros H. unfold submenu.setup_remote_consoles_submenu.
  pose proof (submenu_facts.console_actions_readable absent w servers [] H)
    as Hloop.
  rewrite app_nil_r in Hloop. rewrite Hloop. simpl.
  by rewrite app_nil_r.
Qed.

(** X16. A server whose authentication method or name cannot be read stops
    the rebuilding with the exception of the store: the menu then holds
    the entry that manages connections and the actions of the servers
    before that one, has none for the servers after it, and is not
    rendered, whatever was asked. *)
Theorem unreadable_server_stops_the_submenu
    (absent : string → bool → Result pyval) (render_flag : bool)
    (before : list (string * pyval)) (config_id : string)
    (after : list string) (e : exn) (w : World) :
  Forall (submenu.readable absent w) before →
  submenu.unreadable absent w config_id e →
  submenu.setup_remote_consoles_submenu absent render_flag
    (before.*1 ++ config_id :: after) w =
  (Raise e,
   [submenu.clear_actions;
    submenu.add_item_to_menu submenu.ManageConnections
      submenu.ManagerSection]
   ++ submenu.consoles before).
Proof.
  intros Hbefore Hbad. unfold submenu.setup_remote_consoles_submenu.
  rewrite (submenu_facts.console_actions_readable absent w before _ Hbefore).
  rewrite (submenu_facts.console_actions_unreadable absent w _ _ _ Hbad).
  simpl. by rewrite !app_nil_r.
Qed.


(** * The further properties, on the sample inputs *)

Lemma password_method_resolution_witness :
  List.filter is_get_conf
    (calls_of (on_kernel_started sample.Password sample.KeyFile sample.absent
                 0 sample.kernel_info) sample.password_world) =
  [get_conf_call "srv/auth_method" false;
   get_conf_call "srv/password_login/address" false;
   get_conf_call "srv/password_login/username" false;
   get_conf_call "srv/password_login/port" false;
   get_conf_call "srv/password" true].
Proof.
  exact (proj1 (proj2 (password_method_resolution sample.Password
    sample.KeyFile sample.absent 0 sample.client sample.kernel_info
    (JStr "7f3c") sample.connection_info (PyStr "password_login")
    (PyStr "10.0.0.7") (PyStr "ana") (PyInt 22) (PyStr "hunter2")
    sample.password_world eq_refl eq_refl eq_refl eq_refl eq_refl eq_refl
    eq_refl eq_refl eq_refl))).
Defined.

Lemma missing_kernel_id_changes_nothing_witness :
  on_kernel_started sample.Password sample.KeyFile sample.absent 0
    sample_more.kernel_info_without_id sample.keyfile_world =
  (Raise (KeyError "id"), sample.keyfile_world).
Proof.
  exact (missing_kernel_id_changes_nothing sample.Password sample.KeyFile
           sample.absent 0 sample.client sample_more.kernel_info_without_id
           sample.keyfile_world eq_refl eq_refl).
Defined.

Lemma missing_connection_info_leaves_empty_file_witness :
  let m :=
    on_kernel_started sample.Password sample.KeyFile sample.absent 0
      sample_more.kernel_info_without_connection in
  outcome m sample.configfile_world = Raise (KeyError "connection_info")
  ∧ files (exec m sample.configfile_world) =
      <["kernel-0.json" := EmptyFile]> (files sample.configfile_world).
Proof.
  pose proof (missing_connection_info_leaves_empty_file sample.Password
    sample.KeyFile sample.absent 0 sample.client
    sample_more.kernel_info_without_connection (JStr "7f3c")
    (PyStr "configfile_login") (PyStr "10.0.0.7") (PyStr "ana") (PyInt 22)
    PyNone PyNone [] sample.configfile_world eq_refl eq_refl eq_refl eq_refl
    eq_refl eq_refl eq_refl (or_intror (conj eq_refl eq_refl))) as H.
  exact (conj (proj1 H) (proj1 (proj2 H))).
Defined.


Lemma status_updates_are_isolated_witness :
  conf (exec (_on_connection_status_changed sample_more.active)
          sample.keyfile_world) !! "lab/status" =
  conf sample.keyfile_world !! "lab/status".
Proof.
  apply (status_updates_are_isolated sample_more.active
           sample_more.other_active sample.keyfile_world).
  vm_compute. discriminate.
Defined.

Lemma last_status_update_wins_witness :
  conf (exec (_on_connection_status_changed sample_more.stopped)
          (exec (_on_connection_status_changed sample_more.active)
             sample.keyfile_world)) =
  conf (exec (_on_connection_status_changed sample_more.stopped)
          sample.keyfile_world).
Proof.
  exact (last_status_update_wins sample_more.active sample_more.stopped
           sample.keyfile_world eq_refl).
Defined.

(** The progress that follows the outcome on a line of the log. *)
Lemma no_outcome_in_progress (k : string) :
  k ∈ conftest.outcomes →
  conftest.is_substring k (" [100%]" +:+ String conftest.newline "") = false.
Proof.
  unfold conftest.outcomes. rewrite !elem_of_cons, elem_of_nil.
  intros [-> | [-> | [-> | []]]]; reflexivity.
Qed.

Lemma verbose_line_records_nodeid_witness :
  conftest.test_re_match
    ("spyder" +:+ "/tests/test_a.py::test_three[a b]" +:+ " " +:+ "SKIPPED"
     +:+ " [100%]" +:+ String conftest.newline "") =
  Some ("spyder" +:+ "/tests/test_a.py::test_three[a b]").
Proof.
  apply verbose_line_records_nodeid.
  - reflexivity.
  - apply list_elem_of_here.
  - exact no_outcome_in_progress.
Defined.

Lemma each_item_runs_in_one_slot_witness :
  let item :=
    {| conftest.item_id := 0;
       conftest.nodeid := "spyder/app/tests/test_mainwindow.py::test_one";
       conftest.own_markers := [] |} in
  let without :=
    conftest.pytest_collection_modifyitems (λ _ _ _, false)
      sample_more.ci_platform ∅ false sample_more.ci_items in
  let with_option :=
    conftest.pytest_collection_modifyitems (λ _ _ _, false)
      sample_more.ci_platform ∅ true sample_more.ci_items in
  let passed :=
    if conftest.contains (conftest.get_passed_tests ∅)
         (conftest.nodeid item)
    then [conftest.skip_passed] else [] in
  (conftest.own_markers <$> without !! 0 =
     Some (conftest.own_markers item ++ [conftest.skip_slow] ++ passed)
   ∧ conftest.own_markers <$> with_option !! 0 =
       Some (conftest.own_markers item ++ passed))
  ∨ (conftest.own_markers <$> without !! 0 =
       Some (conftest.own_markers item ++ passed)
     ∧ conftest.own_markers <$> with_option !! 0 =
         Some (conftest.own_markers item ++ [conftest.skip_fast] ++ passed)).
Proof.
  exact (each_item_runs_in_one_slot (λ _ _ _, false) sample_more.ci_platform
           ∅ sample_more.ci_items 0 _ eq_refl).
Defined.

Lemma no_slow_tests_outside_ci_witness :
  conftest.pytest_collection_modifyitems (λ _ _ _, true)
    conftest.sample_platform ∅ false conftest.sample_items
  = conftest.sample_items.
Proof.
  apply (proj2 (no_slow_tests_outside_ci (λ _ _ _, true)
                  conftest.sample_platform ∅ conftest.sample_items
                  (or_introl eq_refl))).
  reflexivity.
Defined.

Lemma main_window_tests_are_slow_witness :
  conftest.own_markers <$>
    conftest.pytest_collection_modifyitems (λ _ _ _, false)
      sample_more.ci_platform ∅ false sample_more.ci_items !! 0
  = Some [conftest.skip_slow].
Proof.
  exact (proj1 (main_window_tests_are_slow (λ _ _ _, false)
                  sample_more.ci_platform ∅ sample_more.ci_items 0 _
                  eq_refl eq_refl eq_refl eq_refl)).
Defined.

Lemma other_tests_are_fast_witness :
  conftest.own_markers <$>
    conftest.pytest_collection_modifyitems (λ _ _ _, false)
      sample_more.ci_platform ∅ true sample_more.ci_items !! 1
  = Some [conftest.skip_fast].
Proof.
  refine (proj2 (other_tests_are_fast (λ _ _ _, false)
                   sample_more.ci_platform ∅ sample_more.ci_items 1 _
                   _ eq_refl eq_refl eq_refl)).
  vm_compute. apply NoDup_cons. split.
  - intros H%list_elem_of_singleton. discriminate H.
  - apply NoDup_singleton.
Defined.

Lemma logged_test_is_skipped_witness :
  ∃ marked,
    conftest.pytest_collection_modifyitems (λ _ _ _, false)
      conftest.sample_platform conftest.sample_cwd true conftest.sample_items
      !! 0 = Some marked
    ∧ last (conftest.own_markers marked) = Some conftest.skip_passed.
Proof.
  eapply (logged_test_is_skipped (λ _ _ _, false) conftest.sample_platform
           conftest.sample_cwd _ true conftest.sample_items 0
           {| conftest.item_id := 0;
              conftest.nodeid := "spyder/tests/test_a.py::test_one";
              conftest.own_markers := [] |}
           "/tests/test_a.py::test_one" "PASSED"
           (" [ 33%]" +:+ String conftest.newline "")).
  - vm_compute. reflexivity.
  - reflexivity.
  - reflexivity.
  - reflexivity.
  - apply list_elem_of_further, list_elem_of_here.
  - unfold conftest.outcomes. intros k.
    rewrite !elem_of_cons, elem_of_nil.
    intros [-> | [-> | [-> | []]]]; reflexivity.
  - vm_compute. apply list_elem_of_here.
Defined.

Lemma named_servers_readable :
  Forall (submenu.readable sample.absent sample_more.named_world)
    [("srv", PyStr "Cluster"); ("lab", PyStr "Lab")].
Proof.
  repeat constructor.
  - exists (PyStr "password_login"). split; vm_compute; reflexivity.
  - exists (PyStr "keyfile_login"). split; vm_compute; reflexivity.
Defined.

Lemma submenu_lists_every_server_witness :
  submenu.setup_remote_consoles_submenu sample.absent true ["srv"; "lab"]
    sample_more.named_world =
  (Ok tt,
   [submenu.clear_actions;
    submenu.add_item_to_menu submenu.ManageConnections
      submenu.ManagerSection;
    submenu.create_console_action "srv" "New console in Cluster server"
      "srv";
    submenu.add_item_to_menu (submenu.NewConsole "srv")
      submenu.ConsolesSection;
    submenu.create_console_action "lab" "New console in Lab server" "lab";
    submenu.add_item_to_menu (submenu.NewConsole "lab")
      submenu.ConsolesSection;
    submenu.render]).
Proof.
  exact (submenu_lists_every_server sample.absent true
           [("srv", PyStr "Cluster"); ("lab", PyStr "Lab")]
           sample_more.named_world named_servers_readable).
Defined.

Lemma unreadable_server_stops_the_submenu_witness :
  submenu.setup_remote_consoles_submenu sample.absent true
    ["srv"; "old"; "lab"] sample_more.named_world =
  (Raise (NoOptionError "old/auth_method"),
   [submenu.clear_actions;
    submenu.add_item_to_menu submenu.ManageConnections
      submenu.ManagerSection;
    submenu.create_console_action "srv" "New console in Cluster server"
      "srv";
    submenu.add_item_to_menu (submenu.NewConsole "srv")
      submenu.ConsolesSection]).
Proof.
  apply (unreadable_server_stops_the_submenu sample.absent true
           [("srv", PyStr "Cluster")] "old" ["lab"]
           (NoOptionError "old/auth_method") sample_more.named_world).
  - repeat constructor.
    exists (PyStr "password_login"). split; vm_compute; reflexivity.
  - left. vm_compute. reflexivity.
Defined.
